(** * WeatherApp: the temperature palette, the schedule extractor and the
    series statistics of [main.cpp], embedded and verified.

    The program computes on C++ [double]s, which are IEEE 754 binary64
    numbers; they are modelled by Rocq's primitive [float]s, whose operations
    are specified by [SpecFloat] through [FloatAxioms].  JSON documents are
    the value trees of Qt's [QJsonValue]. *)

From Stdlib Require Import ZArith QArith Qpower Floats Bool Lia Reals Lqa.
From stdpp Require Import base option list gmap strings sorting.

Set Warnings "-register-all".
Set Default Proof Using "Type".

(** ** Binary64 numbers *)

Module Double.

(** The rational number a [spec_float] denotes; zeros, infinities and NaN
    are sent to [0] and told apart by [is_finite]. *)
Definition SF2Q (f : spec_float) : Q :=
  match f with
  | S754_finite s m e =>
      (inject_Z (if s then Zneg m else Zpos m) * Qpower 2 e)%Q
  | _ => 0%Q
  end.

Definition SF_is_finite (f : spec_float) : bool :=
  match f with
  | S754_zero _ | S754_finite _ _ _ => true
  | _ => false
  end.

(** [std::isfinite] *)
Definition is_finite (x : float) : bool := SF_is_finite (Prim2SF x).

(** [std::isnan] *)
Definition is_nan (x : float) : bool :=
  match Prim2SF x with S754_nan => true | _ => false end.

(** The real (here: rational) value of a finite double. *)
Definition value (x : float) : Q := SF2Q (Prim2SF x).

(** Magnitude of a finite non-zero [spec_float]. *)
Definition mag (m : positive) (e : Z) : Q := (inject_Z (Zpos m) * Qpower 2 e)%Q.


(** Conversion of a 64-bit integer ([qint64], [qsizetype]) to [double]:
    the nearest binary64 number, ties to even. *)
Definition of_qint64 (z : Z) : float :=
  SF2Prim (binary_normalize prec emax z 0 false).

Definition INT64_MIN : Z := -9223372036854775808.
Definition INT64_MAX : Z := 9223372036854775807.

(** The integer part of a finite [spec_float], rounded towards zero. *)
Definition SFtrunc (f : spec_float) : option Z :=
  match f with
  | S754_zero _ => Some 0%Z
  | S754_finite s m e =>
      let n := match e with
               | Zneg k => (Zpos m / 2 ^ Zpos k)%Z
               | _ => (Zpos m * 2 ^ e)%Z
               end in
      Some (if s then (- n)%Z else n)
  | _ => None
  end.

(** [static_cast<qint64>(x)]: truncation towards zero.  The C++ cast is
    undefined on NaN, the infinities and values outside the [qint64] range;
    there the model returns what the x86-64 conversion instruction does,
    [INT64_MIN]. *)
Definition to_qint64 (x : float) : Z :=
  match SFtrunc (Prim2SF x) with
  | Some z => if ((INT64_MIN <=? z) && (z <=? INT64_MAX))%Z then z else INT64_MIN
  | None => INT64_MIN
  end.

End Double.

(** ** The temperature palette *)

(** [Qt::GlobalColor], the members the program names. *)
Inductive GlobalColor : Type :=
  | red | gray | blue | darkGreen | darkYellow | magenta.

(** [QColor], built from a ["#RRGGBB"] name or from a global colour. *)
Inductive QColor : Type :=
  | ColorName (name : string)
  | ColorGlobal (c : GlobalColor).

(** [QColor fon(double temp_c)] *)
Definition fon (temp_c : float) : QColor :=
  if (temp_c <? -20)%float then ColorName "#191970"
  else if (temp_c <=? -10)%float then ColorName "#4682B4"
  else if (temp_c <=? -5)%float then ColorName "#B0E0E6"
  else if (temp_c <=? 0)%float then ColorName "#E0FFFF"
  else if (temp_c <=? 10)%float then ColorName "#FFE4B5"
  else if (temp_c <=? 15)%float then ColorName "#DEB887"
  else if (temp_c <? 21)%float then ColorName "#DAA520"
  else if (temp_c <? 26)%float then ColorName "#FF8C00"
  else ColorName "#B22222".

(** The nine temperature bands, as the ordered dispatch of [fon] cuts them. *)
Inductive Band : Type :=
  | BelowM20 | M20toM10 | M10toM5 | M5to0 | From0to10 | From10to15
  | From15to21 | From21to26 | From26.

Definition in_band (b : Band) (v : Q) : Prop :=
  match b with
  | BelowM20 => (v < -20)%Q
  | M20toM10 => (-20 <= v /\ v <= -10)%Q
  | M10toM5 => (-10 < v /\ v <= -5)%Q
  | M5to0 => (-5 < v /\ v <= 0)%Q
  | From0to10 => (0 < v /\ v <= 10)%Q
  | From10to15 => (10 < v /\ v <= 15)%Q
  | From15to21 => (15 < v /\ v < 21)%Q
  | From21to26 => (21 <= v /\ v < 26)%Q
  | From26 => (26 <= v)%Q
  end.

Definition band_color (b : Band) : QColor :=
  match b with
  | BelowM20 => ColorName "#191970"
  | M20toM10 => ColorName "#4682B4"
  | M10toM5 => ColorName "#B0E0E6"
  | M5to0 => ColorName "#E0FFFF"
  | From0to10 => ColorName "#FFE4B5"
  | From10to15 => ColorName "#DEB887"
  | From15to21 => ColorName "#DAA520"
  | From21to26 => ColorName "#FF8C00"
  | From26 => ColorName "#B22222"
  end.

(** The bands as section 4.3 of the specification lists them: the seventh
    band is written [[15,21)] there, closed at 15. *)
Definition in_band_spec (b : Band) (v : Q) : Prop :=
  match b with
  | From15to21 => (15 <= v /\ v < 21)%Q
  | _ => in_band b v
  end.

Definition palette : list QColor :=
  [ ColorName "#191970"; ColorName "#4682B4"; ColorName "#B0E0E6";
    ColorName "#E0FFFF"; ColorName "#FFE4B5"; ColorName "#DEB887";
    ColorName "#DAA520"; ColorName "#FF8C00"; ColorName "#B22222" ].

(** ** JSON documents *)

(** [QJsonValue]: the value tree the JSON decoder hands over.  A
    [QJsonObject] is a finite map from keys to values, a [QJsonArray] a
    sequence of values. *)
Inductive QJsonValue : Type :=
  | JsonNull
  | JsonBool (b : bool)
  | JsonDouble (d : float)
  | JsonString (s : string)
  | JsonArray (a : list QJsonValue)
  | JsonObject (o : gmap string QJsonValue)
  | JsonUndefined.

(** [QJsonDocument]: null (default-constructed, or what [fromJson] returns
    on text that is not a JSON document), or an array, or an object. *)
Inductive QJsonDocument : Type :=
  | DocNull
  | DocArray (a : list QJsonValue)
  | DocObject (o : gmap string QJsonValue).

(** [QJsonDocument::object()]: the empty object unless the document holds
    an object. *)
Definition object (doc : QJsonDocument) : gmap string QJsonValue :=
  match doc with
  | DocObject o => o
  | _ => ∅
  end.

(** [QJsonObject::operator[](key)] on a non-const object: a reference to
    the value under [key]; a missing key is first inserted with a null
    value.  The pair is the value read and the object afterwards. *)
Definition object_ref (o : gmap string QJsonValue) (key : string)
  : QJsonValue * gmap string QJsonValue :=
  match o !! key with
  | Some v => (v, o)
  | None => (JsonNull, <[key := JsonNull]> o)
  end.

(** [QJsonObject::contains(key)] *)
Definition contains (o : gmap string QJsonValue) (key : string) : bool :=
  bool_decide (is_Some (o !! key)).

(** [toArray()], [toObject()], [toString()], [toDouble()]: the value when
    it has the type asked for, else the empty array, the empty object, the
    null string, zero. *)
Definition toArray (v : QJsonValue) : list QJsonValue :=
  match v with JsonArray a => a | _ => [] end.

Definition toObject (v : QJsonValue) : gmap string QJsonValue :=
  match v with JsonObject o => o | _ => ∅ end.

Definition toString (v : QJsonValue) : string :=
  match v with JsonString s => s | _ => "" end.

Definition toDouble (v : QJsonValue) : float :=
  match v with JsonDouble d => d | _ => 0%float end.

(** [QJsonArray::operator[](i)] for an index inside the array; outside it
    the value is undefined. *)
Definition array_at (a : list QJsonValue) (i : Z) : QJsonValue :=
  if (i <? 0)%Z then JsonUndefined
  else default JsonUndefined (a !! Z.to_nat i).

(** ** The C++ [int] *)

Definition INT_MIN : Z := -2147483648.
Definition INT_MAX : Z := 2147483647.

(** [a + b] on [int]: signed overflow is undefined behaviour, [None]. *)
Definition int_add (a b : Z) : option Z :=
  let s := (a + b)%Z in
  if ((INT_MIN <=? s) && (s <=? INT_MAX))%Z then Some s else None.

(** ** The schedule extractor *)

(** [struct WeatherPoint], over the type of timestamps. *)
Record WeatherPoint (QDateTime : Type) : Type := mkWeatherPoint {
  datetime : QDateTime;
  temperature : float;
  pressure : float;
  humidity : float;
  windspeed : float
}.
Arguments mkWeatherPoint {QDateTime} _ _ _ _ _.
Arguments datetime {QDateTime} _.
Arguments temperature {QDateTime} _.
Arguments pressure {QDateTime} _.
Arguments humidity {QDateTime} _.
Arguments windspeed {QDateTime} _.

(** The sampling interval [parseVisualCrossingJson] reads off [freq]. *)
Definition interval_of_freq (freq : string) : Z :=
  let interval := 1%Z in
  if decide (freq = "1h") then 1%Z
  else if decide (freq = "3h") then 3%Z
  else if decide (freq = "6h") then 6%Z
  else if decide (freq = "12h") then 12%Z
  else if decide (freq = "1d") then 24%Z
  else interval.

Section Extractor.

(** Qt's [QDateTime] and its parser [QDateTime::fromString(text, format)]
    are library code: they are parameters of the model. *)
Context {QDateTime : Type}.
Variable fromString : string -> string -> QDateTime.

(** The body of the loop over [hours]: the sample built from one entry. *)
Definition hour_point (date : string) (hourV : QJsonValue)
  : WeatherPoint QDateTime :=
  let hour := toObject hourV in
  let '(v_time, hour) := object_ref hour "datetime" in
  let time := toString v_time in
  let dt := fromString (date +:+ " " +:+ time) "yyyy-MM-dd HH:mm:ss" in
  let '(v_temp, hour) := object_ref hour "temp" in
  let '(v_pressure, hour) := object_ref hour "pressure" in
  let '(v_humidity, hour) := object_ref hour "humidity" in
  let '(v_windspeed, hour) := object_ref hour "windspeed" in
  mkWeatherPoint dt (toDouble v_temp) (toDouble v_pressure)
    (toDouble v_humidity) (toDouble v_windspeed).

(** [for (int i = ...; i < hours.size(); i += interval)], from the current
    [i].  The result is [None] when [i += interval] overflows, or when the
    fuel runs out before the loop ends. *)
Fixpoint hours_loop (fuel : nat) (date : string) (hours : list QJsonValue)
    (interval i : Z) (result : list (WeatherPoint QDateTime))
  : option (list (WeatherPoint QDateTime)) :=
  if (i <? Z.of_nat (length hours))%Z then
    match fuel with
    | O => None
    | S fuel' =>
        let p := hour_point date (array_at hours i) in
        i' ← int_add i interval;
        hours_loop fuel' date hours interval i' (result ++ [p])
    end
  else Some result.

(** The body of the loop over [days]. *)
Definition day_body (interval : Z) (dayV : QJsonValue)
    (result : list (WeatherPoint QDateTime))
  : option (list (WeatherPoint QDateTime)) :=
  let day := toObject dayV in
  let '(v_date, day) := object_ref day "datetime" in
  let date := toString v_date in
  if negb (contains day "hours") then Some result
  else
    let '(v_hours, day) := object_ref day "hours" in
    let hours := toArray v_hours in
    hours_loop (length hours) date hours interval 0 result.

(** [for (const auto& dayV : days)] *)
Fixpoint days_loop (interval : Z) (days : list QJsonValue)
    (result : list (WeatherPoint QDateTime))
  : option (list (WeatherPoint QDateTime)) :=
  match days with
  | [] => Some result
  | dayV :: days' =>
      result' ← day_body interval dayV result;
      days_loop interval days' result'
  end.

(** [QList<WeatherPoint> parseVisualCrossingJson(doc, freq)] *)
Definition parseVisualCrossingJson (doc : QJsonDocument) (freq : string)
  : option (list (WeatherPoint QDateTime)) :=
  let result := [] in
  let interval := interval_of_freq freq in
  let obj := object doc in
  let '(v_days, obj) := object_ref obj "days" in
  let days := toArray v_days in
  days_loop interval days result.

End Extractor.

(** ** What the extractor is said to produce *)

(** The rounded-up quotient. *)
Definition ceil_div (a b : Z) : Z := ((a + b - 1) / b)%Z.

(** The hour indices a stride of [interval] selects among [n] entries:
    [0], [interval], [2 * interval], ... below [n]. *)
Definition stride_indices (interval : Z) (n : nat) : list nat :=
  map (fun j => (j * Z.to_nat interval)%nat)
      (seq 0 (Z.to_nat (ceil_div (Z.of_nat n) interval))).

(** The date string and the hourly list of a day entry; the list is empty
    when the entry has no ["hours"] key. *)
Definition day_date (dayV : QJsonValue) : string :=
  toString (default JsonUndefined (toObject dayV !! "datetime")).

Definition day_hours (dayV : QJsonValue) : list QJsonValue :=
  toArray (default JsonUndefined (toObject dayV !! "hours")).

(** The days of a document. *)
Definition doc_days (doc : QJsonDocument) : list QJsonValue :=
  toArray (default JsonUndefined (object doc !! "days")).

(** Every hourly list is short enough for the [int] counter: with at most
    [INT_MAX - 24] entries, [i += interval] cannot overflow. *)
Definition hours_fit_int (doc : QJsonDocument) : Prop :=
  Forall (fun dayV => (Z.of_nat (length (day_hours dayV)) <= INT_MAX - 24)%Z)
         (doc_days doc).

(** The source positions (day index, hour index) the extraction selects,
    in the order of selection, for the days from index [d] on. *)
Fixpoint selected_from (d : nat) (interval : Z) (days : list QJsonValue)
  : list (nat * nat) :=
  match days with
  | [] => []
  | dayV :: days' =>
      map (pair d) (stride_indices interval (length (day_hours dayV)))
      ++ selected_from (S d) interval days'
  end.

Definition selected (interval : Z) (days : list QJsonValue) : list (nat * nat) :=
  selected_from 0 interval days.

(** The number of hourly entries of all days. *)
Definition total_hours (days : list QJsonValue) : nat :=
  sum_list (map (fun dayV => length (day_hours dayV)) days).

(** A numeric field of an hourly entry: the number stored under [key], and
    zero when the key is absent or its value is not a number. *)
Definition numeric_field (hourV : QJsonValue) (key : string) : float :=
  match toObject hourV !! key with
  | Some (JsonDouble d) => d
  | _ => 0%float
  end.

(** The time string of an hourly entry, empty when absent or not a string. *)
Definition time_field (hourV : QJsonValue) : string :=
  match toObject hourV !! "datetime" with
  | Some (JsonString s) => s
  | _ => ""
  end.

(** Source positions in document order: by day, then by hour. *)
Definition pos_lt (p q : nat * nat) : Prop :=
  (p.1 < q.1)%nat \/ (p.1 = q.1 /\ (p.2 < q.2)%nat).

(** The intervals [parseVisualCrossingJson] recognises. *)
Definition recognized_freqs : list string := ["1h"; "3h"; "6h"; "12h"; "1d"].

(** The document of the repository's parser test: one day, two hours. *)
Definition test_hour (time : string) (temp pressure humidity windspeed : float)
  : QJsonValue :=
  JsonObject (list_to_map
    [("datetime", JsonString time); ("temp", JsonDouble temp);
     ("pressure", JsonDouble pressure); ("humidity", JsonDouble humidity);
     ("windspeed", JsonDouble windspeed)]).

Definition test_day : QJsonValue :=
  JsonObject (list_to_map
    [("datetime", JsonString "2023-01-01");
     ("hours", JsonArray [test_hour "00:00:00" 10 1010 80 1;
                          (* windspeed 1.1, as the nearest double *)
                          test_hour "01:00:00" 11 1011 81 0x1.199999999999ap+0])]).

Definition test_document : QJsonDocument :=
  DocObject (list_to_map [("days", JsonArray [test_day])]).

Section ExtractorSpec.
Context {QDateTime : Type}.
Variable fromString : string -> string -> QDateTime.

(** The samples of one day: one per selected hour index. *)
Definition day_points (interval : Z) (dayV : QJsonValue)
  : list (WeatherPoint QDateTime) :=
  map (fun h => hour_point fromString (day_date dayV)
                  (default JsonUndefined (day_hours dayV !! h)))
      (stride_indices interval (length (day_hours dayV))).

(** The sample built from the source position [(d, h)]. *)
Definition sample_at (days : list QJsonValue) (pos : nat * nat)
  : WeatherPoint QDateTime :=
  let dayV := default JsonUndefined (days !! pos.1) in
  hour_point fromString (day_date dayV)
    (default JsonUndefined (day_hours dayV !! pos.2)).

End ExtractorSpec.

(** ** The series statistics *)

(** The arithmetic [plotLineStat] computes with.  The program runs it on
    [double]; the same computation over the real numbers is what it
    approximates. *)
Class Scalar (A : Type) : Type := {
  zero : A;
  add : A -> A -> A;
  sub : A -> A -> A;
  mul : A -> A -> A;
  div : A -> A -> A;
  sqrt : A -> A;
  of_size : nat -> A
}.

#[global] Instance double_scalar : Scalar float := {|
  zero := 0%float;
  add := PrimFloat.add;
  sub := PrimFloat.sub;
  mul := PrimFloat.mul;
  div := PrimFloat.div;
  sqrt := PrimFloat.sqrt;
  of_size n := Double.of_qint64 (Z.of_nat n)
|}.

#[global] Instance real_scalar : Scalar R := {|
  zero := 0%R;
  add := Rplus;
  sub := Rminus;
  mul := Rmult;
  div := Rdiv;
  sqrt := R_sqrt.sqrt;
  of_size := INR
|}.

(** [std::accumulate(first, last, init, op)]; [op] is [+] when left out. *)
Definition accumulate {A B : Type} (values : list B) (init : A)
    (op : A -> B -> A) : A :=
  fold_left op values init.

Section Statistics.
Context {A : Type} `{Scalar A}.

(** [double mean = std::accumulate(...) / values.size();] *)
Definition mean (values : list A) : A :=
  div (accumulate values zero add) (of_size (length values)).

(** [double stddev = std::sqrt(std::accumulate(...) / values.size());]
    every operation is rounded on its own (no fused multiply-add). *)
Definition stddev (values : list A) : A :=
  let mean := mean values in
  sqrt (div (accumulate values zero
               (fun sum v => add sum (mul (sub v mean) (sub v mean))))
            (of_size (length values))).




End Statistics.

(** ** The chart *)

(** [QPointF] *)
Record QPointF : Type := mkQPointF { px : float; py : float }.

(** [QLineSeries]: name, colour and the points appended. *)
Record QLineSeries : Type := mkQLineSeries {
  series_name : string;
  series_color : QColor;
  series_points : list QPointF
}.

(** [QDateTimeAxis]: format, title, and range and tick count when set. *)
Record QDateTimeAxis (QDateTime : Type) : Type := mkQDateTimeAxis {
  axis_format : string;
  axis_title : string;
  axis_range : option (QDateTime * QDateTime);
  axis_tick_count : option Z
}.
Arguments mkQDateTimeAxis {QDateTime} _ _ _ _.
Arguments axis_format {QDateTime} _.
Arguments axis_title {QDateTime} _.
Arguments axis_range {QDateTime} _.
Arguments axis_tick_count {QDateTime} _.

(** [QChart], as [plotLineStat] leaves it: the series in the order they
    were added, the time axis and the title. *)
Record QChart (QDateTime : Type) : Type := mkQChart {
  chart_series : list QLineSeries;
  chart_axisX : QDateTimeAxis QDateTime;
  chart_title : string
}.
Arguments mkQChart {QDateTime} _ _ _.
Arguments chart_series {QDateTime} _.
Arguments chart_axisX {QDateTime} _.
Arguments chart_title {QDateTime} _.

Section Chart.

(** [QDateTime::fromMSecsSinceEpoch] and [QDateTime::toMSecsSinceEpoch]
    are library code: parameters of the model. *)
Context {QDateTime : Type}.
Variable fromMSecsSinceEpoch : Z -> QDateTime.
Variable toMSecsSinceEpoch : QDateTime -> Z.

(** [QLineSeries::append(qreal x, qreal y)] called with a [qint64] x. *)
Definition point_at (ms : Z) (y : float) : QPointF :=
  mkQPointF (Double.of_qint64 ms) y.

(** [void WeatherChart::plotLineStat(xys, name, color, showDeviation, freq)];
    the result is the chart it sets. *)
Definition plotLineStat (xys : list QPointF) (name : string) (color : QColor)
    (showDeviation : bool) (freq : string) : QChart QDateTime :=
  let mss := map (fun pt => Double.to_qint64 (px pt)) xys in
  let series :=
    mkQLineSeries name color
      (map (fun pt => point_at (Double.to_qint64 (px pt)) (py pt)) xys) in
  let datetimes := map fromMSecsSinceEpoch mss in
  let values := map py xys in
  let mean := mean values in
  let stddev := stddev values in
  let meanL :=
    mkQLineSeries "Среднее" (ColorGlobal red)
      (map (fun dt => point_at (toMSecsSinceEpoch dt) mean) datetimes) in
  let deviation :=
    if showDeviation && (0 <? stddev)%float then
      let upper :=
        mkQLineSeries "+σ" (ColorGlobal gray)
          (zip_with (fun dt v => point_at (toMSecsSinceEpoch dt) (v + stddev)%float)
             datetimes values) in
      let lower :=
        mkQLineSeries "-σ" (ColorGlobal gray)
          (zip_with (fun dt v => point_at (toMSecsSinceEpoch dt) (v - stddev)%float)
             datetimes values) in
      [upper; lower]
    else [] in
  let format :=
    if bool_decide (freq = "1h") || bool_decide (freq = "3h")
    then "HH:mm" +:+ String (Ascii.ascii_of_nat 10) "dd.MM"
    else if bool_decide (freq = "6h") || bool_decide (freq = "12h")
    then "HH:mm" +:+ String (Ascii.ascii_of_nat 10) "dd.MM"
    else "dd.MM.yyyy" in
  let axisX :=
    mkQDateTimeAxis format "Время"
      (match head datetimes, last datetimes with
       | Some first, Some last => Some (first, last)
       | _, _ => None
       end)
      (if bool_decide (datetimes = []) then None
       else Some (Z.min 10 (Z.of_nat (length datetimes)))) in
  mkQChart ([series; meanL] ++ deviation) axisX name.

(** The data line, and the two lines of the deviation band, as
    [plotLineStat] builds them. *)
Definition data_series (xys : list QPointF) (name : string) (color : QColor)
  : QLineSeries :=
  mkQLineSeries name color
    (map (fun pt => point_at (Double.to_qint64 (px pt)) (py pt)) xys).

Definition upper_series (xys : list QPointF) : QLineSeries :=
  mkQLineSeries "+σ" (ColorGlobal gray)
    (zip_with (fun dt v => point_at (toMSecsSinceEpoch dt)
                             (v + stddev (map py xys))%float)
       (map fromMSecsSinceEpoch (map (fun pt => Double.to_qint64 (px pt)) xys))
       (map py xys)).

Definition lower_series (xys : list QPointF) : QLineSeries :=
  mkQLineSeries "-σ" (ColorGlobal gray)
    (zip_with (fun dt v => point_at (toMSecsSinceEpoch dt)
                             (v - stddev (map py xys))%float)
       (map fromMSecsSinceEpoch (map (fun pt => Double.to_qint64 (px pt)) xys))
       (map py xys)).

(** The series added after the data line and the mean line. *)
Definition deviation_series (chart : QChart QDateTime) : list QLineSeries :=
  drop 2 (chart_series chart).

End Chart.

(** ** The bar chart *)

(** [*std::min_element(first, last)], [*std::max_element(first, last)]:
    the first smallest and the first largest element under [<].  On an
    empty range the iterator returned is [last], and dereferencing it is
    undefined: [None]. *)
Definition min_element (l : list float) : option float :=
  match l with
  | [] => None
  | x :: rest =>
      Some (fold_left (fun smallest v =>
                         if (v <? smallest)%float then v else smallest)
                      rest x)
  end.

Definition max_element (l : list float) : option float :=
  match l with
  | [] => None
  | x :: rest =>
      Some (fold_left (fun largest v =>
                         if (largest <? v)%float then v else largest)
                      rest x)
  end.

(** [QBarSet]: label, values appended, and the colour when one was set. *)
Record QBarSet : Type := mkQBarSet {
  barset_label : string;
  barset_values : list float;
  barset_color : option QColor
}.

(** [QBarSet::setColor] *)
Definition setColor (barSet : QBarSet) (color : QColor) : QBarSet :=
  mkQBarSet (barset_label barSet) (barset_values barSet) (Some color).

(** The chart [plotBarColored] sets: its one bar set, the title, the
    categories of the X axis and the range of the Y axis. *)
Record QBarChart : Type := mkQBarChart {
  bar_set : QBarSet;
  bar_title : string;
  bar_categories : list string;
  bar_range : float * float
}.

(** [for (int i = 0; i < colors.size(); ++i) barSet->setColor(colors[i]);]
    from the current [i]; [None] when [++i] overflows, when the fuel runs
    out, or when [colors[i]] is outside the vector. *)
Fixpoint color_loop (fuel : nat) (colors : list QColor) (i : Z)
    (barSet : QBarSet) : option QBarSet :=
  if (i <? Z.of_nat (length colors))%Z then
    match fuel with
    | O => None
    | S fuel' =>
        color ← (if (i <? 0)%Z then None else colors !! Z.to_nat i);
        i' ← int_add i 1;
        color_loop fuel' colors i' (setColor barSet color)
    end
  else Some barSet.

(** [void WeatherChart::plotBarColored(times, temps, colors)]; the result
    is the chart it sets. *)
Definition plotBarColored (times : list string) (temps : list float)
    (colors : list QColor) : option QBarChart :=
  let barSet := mkQBarSet "Температура" [] None in
  let barSet := fold_left (fun barSet t =>
                  mkQBarSet (barset_label barSet) (barset_values barSet ++ [t])
                            (barset_color barSet)) temps barSet in
  barSet ← color_loop (length colors) colors 0 barSet;
  lo ← min_element temps;
  hi ← max_element temps;
  Some (mkQBarChart barSet "Температура в ближайшие 24 часа" times
          ((lo - 5)%float, (hi + 5)%float)).

(** ** The replies of the weather services *)

(** The constant [273.15], as the nearest [double]. *)
Definition kelvin_offset : float := 0x1.1126666666666p+8.

(** The temperature [getWeather] reads off the current-weather reply, and
    the background colour it sets. *)
Definition current_temp (doc : QJsonDocument) : float :=
  let '(v_main, _) := object_ref (object doc) "main" in
  let mainObj := toObject v_main in
  let '(v_temp, mainObj) := object_ref mainObj "temp" in
  (toDouble v_temp - kelvin_offset)%float.

Definition current_background (doc : QJsonDocument) : QColor :=
  fon (current_temp doc).

(** What the forecast reply is turned into: the stored forecast and the
    three vectors handed to [plotBarColored]. *)
Record ForecastLists (QDateTime : Type) : Type := mkForecastLists {
  fl_data : list (WeatherPoint QDateTime);
  fl_times : list string;
  fl_temps : list float;
  fl_colors : list QColor
}.
Arguments mkForecastLists {QDateTime} _ _ _ _.
Arguments fl_data {QDateTime} _.
Arguments fl_times {QDateTime} _.
Arguments fl_temps {QDateTime} _.
Arguments fl_colors {QDateTime} _.

(** What [getPlotStat] does with the timeline reply: an error box, or the
    four charts of the tab chosen by [showDev]. *)
Inductive PlotOutcome (QDateTime : Type) : Type :=
  | PlotError (title message : string)
  | PlotCharts (showDev : bool) (charts : list (QChart QDateTime)).
Arguments PlotError {QDateTime} _ _.
Arguments PlotCharts {QDateTime} _ _.

(** The four vectors of points built from a list of samples. *)
Record FourXY : Type := mkFourXY {
  tempXY : list QPointF;
  presXY : list QPointF;
  humXY : list QPointF;
  windXY : list QPointF
}.

Section Window.

(** More of [QDateTime]: [toString(format)], besides the parser and the
    conversions from and to milliseconds. *)
Context {QDateTime : Type}.
Variable fromString : string -> string -> QDateTime.
Variable formatDateTime : QDateTime -> string -> string.
Variable fromMSecsSinceEpoch : Z -> QDateTime.
Variable toMSecsSinceEpoch : QDateTime -> Z.

(** The body of the loop over the forecast list: the sample of one entry. *)
Definition forecast_point (v : QJsonValue) : WeatherPoint QDateTime :=
  let obj := toObject v in
  let '(v_dt, obj) := object_ref obj "dt_txt" in
  let dt := fromString (toString v_dt) "yyyy-MM-dd HH:mm:ss" in
  let '(v_main, obj) := object_ref obj "main" in
  let temp :=
    (toDouble (object_ref (toObject v_main) "temp").1 - kelvin_offset)%float in
  let '(v_main, obj) := object_ref obj "main" in
  let pressure := toDouble (object_ref (toObject v_main) "pressure").1 in
  let '(v_main, obj) := object_ref obj "main" in
  let humidity := toDouble (object_ref (toObject v_main) "humidity").1 in
  let '(v_wind, obj) := object_ref obj "wind" in
  let wind := toDouble (object_ref (toObject v_wind) "speed").1 in
  mkWeatherPoint dt temp pressure humidity wind.

Definition forecast_step (st : ForecastLists QDateTime) (v : QJsonValue)
  : ForecastLists QDateTime :=
  let p := forecast_point v in
  mkForecastLists (fl_data st ++ [p])
    (fl_times st ++ [formatDateTime (datetime p) "HH:mm"])
    (fl_temps st ++ [temperature p])
    (fl_colors st ++ [fon (temperature p)]).

(** The loop of the forecast callback of [getWeather], after
    [forecastData.clear()]. *)
Definition forecast_lists (fdoc : QJsonDocument) : ForecastLists QDateTime :=
  let '(v_list, _) := object_ref (object fdoc) "list" in
  let arr := toArray v_list in
  fold_left forecast_step arr (mkForecastLists [] [] [] []).

(** The forecast callback: the new [forecastData] and the bar chart. *)
Definition forecast_reply (fdoc : QJsonDocument)
  : list (WeatherPoint QDateTime) * option QBarChart :=
  let st := forecast_lists fdoc in
  (fl_data st, plotBarColored (fl_times st) (fl_temps st) (fl_colors st)).

(** [for (const auto& pt : list)] filling [tempXY], [presXY], [humXY] and
    [windXY], in [showFourChartsCurrent] and in [getPlotStat]. *)
Definition four_xy_step (st : FourXY) (pt : WeatherPoint QDateTime) : FourXY :=
  let ms := toMSecsSinceEpoch (datetime pt) in
  mkFourXY (tempXY st ++ [mkQPointF (Double.of_qint64 ms) (temperature pt)])
           (presXY st ++ [mkQPointF (Double.of_qint64 ms) (pressure pt)])
           (humXY st ++ [mkQPointF (Double.of_qint64 ms) (humidity pt)])
           (windXY st ++ [mkQPointF (Double.of_qint64 ms) (windspeed pt)]).

Definition four_xy (data : list (WeatherPoint QDateTime)) : FourXY :=
  fold_left four_xy_step data (mkFourXY [] [] [] []).

(** The arrays [xys], [names] and [cols], zipped. *)
Definition chart_inputs (data : list (WeatherPoint QDateTime))
  : list (list QPointF * string * QColor) :=
  let st := four_xy data in
  [ (tempXY st, "Температура", ColorGlobal blue);
    (presXY st, "Давление", ColorGlobal darkGreen);
    (humXY st, "Влажность", ColorGlobal darkYellow);
    (windXY st, "Скорость ветра", ColorGlobal magenta) ].

(** [QDateTimeAxis::setFormat] on the time axis of a chart. *)
Definition setFormat (format : string) (chart : QChart QDateTime)
  : QChart QDateTime :=
  mkQChart (chart_series chart)
    (mkQDateTimeAxis format (axis_title (chart_axisX chart))
       (axis_range (chart_axisX chart)) (axis_tick_count (chart_axisX chart)))
    (chart_title chart).

(** [void MainWindow::showFourChartsCurrent()]: the text of the error box
    when there is no forecast, else the four charts of the dialog. *)
Definition showFourChartsCurrent (forecastData : list (WeatherPoint QDateTime))
  : string + list (QChart QDateTime) :=
  match forecastData with
  | [] => inl "Сначала введите город и нажмите 'Найти'"
  | _ =>
      inr (map (fun '(xys, name, col) =>
                  setFormat "HH:mm"
                    (plotLineStat fromMSecsSinceEpoch toMSecsSinceEpoch
                       xys name col false "3h"))
               (chart_inputs forecastData))
  end.

(** The callback of [getPlotStat] on a reply without network error; [None]
    when the extraction is undefined. *)
Definition getPlotStat_reply (showDev : bool) (doc : QJsonDocument)
    (freq : string) : option (PlotOutcome QDateTime) :=
  list ← parseVisualCrossingJson fromString doc freq;
  match list with
  | [] => Some (PlotError "Ошибка" "Нет данных для отображения.")
  | _ =>
      Some (PlotCharts showDev
              (map (fun '(xys, name, col) =>
                      if showDev
                      then plotLineStat fromMSecsSinceEpoch toMSecsSinceEpoch
                             xys name col true freq
                      else plotLineStat fromMSecsSinceEpoch toMSecsSinceEpoch
                             xys name col false freq)
                   (chart_inputs list)))
  end.

(** ** The copy of the parser in the test file *)

(** [QJsonDocument::isObject()] *)
Definition isObject (doc : QJsonDocument) : bool :=
  match doc with DocObject _ => true | _ => false end.

(** The body of the loop over [days] in the copy: every hourly entry, in a
    range-based loop. *)
Definition test_day_body (result : list (WeatherPoint QDateTime))
    (dayV : QJsonValue) : list (WeatherPoint QDateTime) :=
  let day := toObject dayV in
  let '(v_date, day) := object_ref day "datetime" in
  let date := toString v_date in
  if negb (contains day "hours") then result
  else
    let '(v_hours, day) := object_ref day "hours" in
    let hours := toArray v_hours in
    fold_left (fun result hourV => result ++ [hour_point fromString date hourV])
              hours result.

(** [parseVisualCrossingJson] as the test file defines it. *)
Definition test_parseVisualCrossingJson (doc : QJsonDocument) (freq : string)
  : list (WeatherPoint QDateTime) :=
  let result := [] in
  if negb (isObject doc) then result
  else
    let obj := object doc in
    let '(v_days, obj) := object_ref obj "days" in
    let days := toArray v_days in
    fold_left test_day_body days result.

End Window.

(** ** Notions the further properties are stated with *)

#[global] Instance GlobalColor_eq_dec : EqDecision GlobalColor.
Proof. solve_decision. Defined.

#[global] Instance QColor_eq_dec : EqDecision QColor.
Proof. solve_decision. Defined.

(** The place of a colour in the palette, from the coldest (0) to the
    hottest (8); 9 for a colour outside the palette. *)
Definition palette_rank (c : QColor) : nat :=
  default 9%nat (fst <$> list_find (fun c' => c' = c) palette).

(** Not below zero: NaN, a zero, or a number with the sign bit clear. *)
Definition SF_nonneg (f : spec_float) : bool :=
  match f with
  | S754_zero _ | S754_nan => true
  | S754_infinity s | S754_finite s _ _ => negb s
  end.

(** The entries of the forecast list of a reply. *)
Definition forecast_entries (fdoc : QJsonDocument) : list QJsonValue :=
  toArray (default JsonUndefined (object fdoc !! "list")).

Section Series.
Context {QDateTime : Type}.
Variable fromString : string -> string -> QDateTime.
Variable toMSecsSinceEpoch : QDateTime -> Z.

(** Every hourly entry of the document, day after day. *)
Definition all_samples (days : list QJsonValue)
  : list (WeatherPoint QDateTime) :=
  concat (map (fun dayV => map (hour_point fromString (day_date dayV))
                               (day_hours dayV)) days).

(** The points (timestamp, field) of a list of samples. *)
Definition xy_of (field : WeatherPoint QDateTime -> float)
    (data : list (WeatherPoint QDateTime)) : list QPointF :=
  map (fun pt => mkQPointF (Double.of_qint64 (toMSecsSinceEpoch (datetime pt)))
                           (field pt)) data.

End Series.

(** * Proofs *)

(** ** The order of binary64 numbers is the order of their values *)

Module DoubleFacts.
Import Double.

Lemma digits2_pos_bounds (m : positive) :
  (2 ^ (Zpos (digits2_pos m) - 1) <= Zpos m < 2 ^ Zpos (digits2_pos m))%Z.
Proof.
  induction m as [p IH | p IH |]; simpl digits2_pos.
  - rewrite Pos2Z.inj_succ.
    replace (Z.succ (Zpos (digits2_pos p)) - 1)%Z
      with (Z.succ (Zpos (digits2_pos p) - 1))%Z by lia.
    rewrite !Z.pow_succ_r by lia. lia.
  - rewrite Pos2Z.inj_succ.
    replace (Z.succ (Zpos (digits2_pos p)) - 1)%Z
      with (Z.succ (Zpos (digits2_pos p) - 1))%Z by lia.
    rewrite !Z.pow_succ_r by lia. lia.
  - simpl. lia.
Qed.

(** What [valid_binary] says of a finite number: the exponent range, a
    mantissa of at most 53 bits, and of exactly 53 bits unless subnormal. *)
Lemma bounded_range (m : positive) (e : Z) :
  SpecFloat.bounded prec emax m e = true ->
  (-1074 <= e <= 971)%Z /\ (Zpos m < 2 ^ 53)%Z /\
  (-1074 < e -> 2 ^ 52 <= Zpos m)%Z.
Proof.
  unfold SpecFloat.bounded, canonical_mantissa, fexp, emin, prec, emax.
  intros H. apply andb_true_iff in H as [Hc He].
  apply Z.eqb_eq in Hc. apply Z.leb_le in He.
  pose proof (digits2_pos_bounds m) as [Hlo Hhi].
  set (d := Zpos (digits2_pos m)) in *.
  assert (Hd : (d <= 53)%Z) by lia.
  split; [lia|]. split.
  - eapply Z.lt_le_trans; [exact Hhi|]. apply Z.pow_le_mono_r; lia.
  - intros Hgt. assert (d = 53)%Z as -> by lia. exact Hlo.
Qed.

Lemma Qpower2_pos (e : Z) : (0 < Qpower 2 e)%Q.
Proof. apply Qpower_0_lt. reflexivity. Qed.

Lemma mag_shift (a : Z) (e k : Z) :
  (0 <= k)%Z ->
  (inject_Z a * Qpower 2 (e + k) == inject_Z (a * 2 ^ k) * Qpower 2 e)%Q.
Proof.
  intros Hk. rewrite Qpower_plus by discriminate.
  rewrite inject_Z_mult, Zpower_Qpower by exact Hk.
  change (inject_Z 2) with 2%Q. ring.
Qed.

Lemma mag_pos (m : positive) (e : Z) : (0 < mag m e)%Q.
Proof.
  unfold mag. apply Qmult_lt_0_compat; [reflexivity | apply Qpower2_pos].
Qed.

Lemma mag_lt_exp (m1 m2 : positive) (e1 e2 : Z) :
  SpecFloat.bounded prec emax m1 e1 = true -> SpecFloat.bounded prec emax m2 e2 = true ->
  (e1 < e2)%Z -> (mag m1 e1 < mag m2 e2)%Q.
Proof.
  intros H1 H2 He. unfold mag.
  apply bounded_range in H1 as (Hr1 & Hm1 & _).
  apply bounded_range in H2 as (Hr2 & _ & Hm2).
  replace e2 with (e1 + (e2 - e1))%Z by lia.
  rewrite mag_shift by lia.
  apply Qmult_lt_r; [apply Qpower2_pos|].
  rewrite <- Zlt_Qlt.
  assert (Hp : (2 ^ 1 <= 2 ^ (e2 - e1))%Z) by (apply Z.pow_le_mono_r; lia).
  specialize (Hm2 ltac:(lia)).
  change (2 ^ 53)%Z with (2 * 2 ^ 52)%Z in Hm1.
  change (2 ^ 1)%Z with 2%Z in Hp. nia.
Qed.

(** Exponent first, then mantissa: the comparison [SFcompare] makes. *)
Lemma mag_compare (m1 m2 : positive) (e1 e2 : Z) :
  SpecFloat.bounded prec emax m1 e1 = true -> SpecFloat.bounded prec emax m2 e2 = true ->
  (mag m1 e1 ?= mag m2 e2)%Q =
  match (e1 ?= e2)%Z with
  | Lt => Lt
  | Gt => Gt
  | Eq => Pos.compare m1 m2
  end.
Proof.
  intros H1 H2. destruct (Z.compare_spec e1 e2) as [-> | Hlt | Hgt].
  - unfold mag. destruct (Pos.compare_spec m1 m2) as [-> | Hm | Hm].
    + apply -> Qeq_alt. reflexivity.
    + apply -> Qlt_alt. apply Qmult_lt_r; [apply Qpower2_pos|].
      rewrite <- Zlt_Qlt. lia.
    + apply -> Qgt_alt. apply Qmult_lt_r; [apply Qpower2_pos|].
      rewrite <- Zlt_Qlt. lia.
  - apply -> Qlt_alt. now apply mag_lt_exp.
  - apply -> Qgt_alt. now apply mag_lt_exp.
Qed.

Lemma SF2Q_pos (m : positive) (e : Z) : SF2Q (S754_finite false m e) = mag m e.
Proof. reflexivity. Qed.

Lemma SF2Q_neg (m : positive) (e : Z) :
  (SF2Q (S754_finite true m e) == - mag m e)%Q.
Proof.
  unfold SF2Q, mag. change (Zneg m) with (- Zpos m)%Z.
  rewrite inject_Z_opp. ring.
Qed.

Ltac cmp_goal := first [ apply -> Qeq_alt | apply -> Qlt_alt | apply -> Qgt_alt ].
Ltac cmp_hyp H :=
  first [ apply <- Qeq_alt in H | apply <- Qlt_alt in H | apply <- Qgt_alt in H ].

Lemma SFcompare_correct (f1 f2 : spec_float) :
  valid_binary f1 = true -> valid_binary f2 = true ->
  SF_is_finite f1 = true -> SF_is_finite f2 = true ->
  SFcompare f1 f2 = Some (SF2Q f1 ?= SF2Q f2)%Q.
Proof.
  intros V1 V2 F1 F2.
  destruct f1 as [s1 | s1 | | s1 m1 e1]; try discriminate;
  destruct f2 as [s2 | s2 | | s2 m2 e2]; try discriminate; simpl in V1, V2.
  - reflexivity.
  - pose proof (mag_pos m2 e2).
    simpl SFcompare. f_equal. symmetry. destruct s2; cmp_goal.
    + rewrite SF2Q_neg. simpl SF2Q. lra.
    + rewrite SF2Q_pos. simpl SF2Q. lra.
  - pose proof (mag_pos m1 e1).
    simpl SFcompare. f_equal. symmetry. destruct s1; cmp_goal.
    + rewrite SF2Q_neg. simpl SF2Q. lra.
    + rewrite SF2Q_pos. simpl SF2Q. lra.
  - pose proof (mag_pos m1 e1). pose proof (mag_pos m2 e2).
    pose proof (mag_compare m1 m2 e1 e2 V1 V2) as Hc.
    unfold SFcompare. f_equal. symmetry. destruct s1, s2.
    + rewrite !SF2Q_neg.
      change (Pcompare m1 m2 Eq) with (Pos.compare m1 m2).
      destruct (e1 ?= e2)%Z; [destruct (m1 ?= m2)%positive | |];
        simpl CompOpp; cmp_hyp Hc; cmp_goal; lra.
    + cmp_goal. rewrite SF2Q_neg, SF2Q_pos. lra.
    + cmp_goal. rewrite SF2Q_neg, SF2Q_pos. lra.
    + rewrite !SF2Q_pos. rewrite Hc. reflexivity.
Qed.

Lemma compare_value (x y : float) :
  is_finite x = true -> is_finite y = true ->
  SFcompare (Prim2SF x) (Prim2SF y) = Some (value x ?= value y)%Q.
Proof.
  intros Hx Hy. apply SFcompare_correct; auto using Prim2SF_valid.
Qed.

(** [x < y] on finite doubles is [<] on their values. *)
Lemma ltb_value (x y : float) :
  is_finite x = true -> is_finite y = true ->
  (x <? y)%float = true <-> (value x < value y)%Q.
Proof.
  intros Hx Hy. rewrite ltb_spec. unfold SFltb.
  rewrite (compare_value x y Hx Hy), Qlt_alt.
  destruct (value x ?= value y)%Q; intuition congruence.
Qed.

(** [x <= y] on finite doubles is [<=] on their values. *)
Lemma leb_value (x y : float) :
  is_finite x = true -> is_finite y = true ->
  (x <=? y)%float = true <-> (value x <= value y)%Q.
Proof.
  intros Hx Hy. rewrite leb_spec. unfold SFleb.
  rewrite (compare_value x y Hx Hy), Qle_alt.
  destruct (value x ?= value y)%Q; intuition congruence.
Qed.

(** The two comparisons against a constant [c] whose value is [q]. *)
Lemma ltb_const (x c : float) (q : Q) :
  is_finite x = true -> is_finite c = true -> (value c == q)%Q ->
  if (x <? c)%float then (value x < q)%Q else (q <= value x)%Q.
Proof.
  intros Hx Hc Hq. pose proof (ltb_value x c Hx Hc) as Hlt.
  rewrite Hq in Hlt. destruct (x <? c)%float.
  - now apply Hlt.
  - apply Qnot_lt_le. intros Hn. apply Hlt in Hn. discriminate.
Qed.

Lemma leb_const (x c : float) (q : Q) :
  is_finite x = true -> is_finite c = true -> (value c == q)%Q ->
  if (x <=? c)%float then (value x <= q)%Q else (q < value x)%Q.
Proof.
  intros Hx Hc Hq. pose proof (leb_value x c Hx Hc) as Hle.
  rewrite Hq in Hle. destruct (x <=? c)%float.
  - now apply Hle.
  - apply Qnot_le_lt. intros Hn. apply Hle in Hn. discriminate.
Qed.

(** Comparisons with NaN are all false. *)
Lemma nan_ltb (x c : float) : is_nan x = true -> (x <? c)%float = false.
Proof.
  unfold is_nan. intros Hx. rewrite ltb_spec. unfold SFltb, SFcompare.
  destruct (Prim2SF x); try discriminate. reflexivity.
Qed.

Lemma nan_leb (x c : float) : is_nan x = true -> (x <=? c)%float = false.
Proof.
  unfold is_nan. intros Hx. rewrite leb_spec. unfold SFleb, SFcompare.
  destruct (Prim2SF x); try discriminate. reflexivity.
Qed.

(** *** Exact operations *)

Lemma bounded_canonical (m : positive) (e : Z) :
  SpecFloat.bounded prec emax m e = true ->
  fexp prec emax (Zpos (digits2_pos m) + e) = e /\ (e <= 971)%Z.
Proof.
  unfold SpecFloat.bounded, canonical_mantissa. intros H.
  apply andb_true_iff in H as [Hc He].
  apply Z.eqb_eq in Hc. apply Z.leb_le in He. split; [done|].
  unfold emax, prec in He. lia.
Qed.

(** Rounding a number that is already representable returns it. *)
Lemma binary_round_aux_exact (s : bool) (m : positive) (e : Z) :
  SpecFloat.bounded prec emax m e = true ->
  binary_round_aux prec emax s (Zpos m) e loc_Exact = S754_finite s m e.
Proof.
  intros Hb. destruct (bounded_canonical m e Hb) as [Hc He].
  unfold binary_round_aux, shr_fexp. simpl Zdigits2.
  rewrite Hc, Z.sub_diag. simpl.
  rewrite Hc, Z.sub_diag. simpl.
  assert (Hle : (e <=? emax - prec)%Z = true) by (apply Z.leb_le; unfold emax, prec; lia).
  by rewrite Hle.
Qed.





End DoubleFacts.

(** ** The palette *)

Section Fon.
Import Double DoubleFacts.

Lemma const_value (c : float) (q : Q) :
  (SF2Q (Prim2SF c) ?= q)%Q = Eq -> (value c == q)%Q.
Proof. intros H. now apply Qeq_alt. Qed.

Ltac cut_at x Hx c z :=
  let H := fresh "Hcut" in
  lazymatch goal with
  | |- context [ (x <? c)%float ] =>
      pose proof (ltb_const x c z Hx eq_refl (const_value c z eq_refl)) as H;
      destruct (x <? c)%float
  | |- context [ (x <=? c)%float ] =>
      pose proof (leb_const x c z Hx eq_refl (const_value c z eq_refl)) as H;
      destruct (x <=? c)%float
  end.

Ltac band_solve b :=
  exists b; split; [ simpl; lra | split; [ | reflexivity ] ];
  let b' := fresh "b" in
  intros b'; destruct b'; simpl; intros; first [ reflexivity | exfalso; lra ].

(** C1, with the seventh band open at 15: on every finite temperature
    exactly one of the nine bands < -20, [-20,-10], (-10,-5], (-5,0],
    (0,10], (10,15], (15,21), [21,26), >= 26 holds of its value, and [fon]
    returns the colour of that band; the boundary values -20, -10, -5, 0, 10, 15, 21, 26 go to
    #4682B4, #4682B4, #B0E0E6, #E0FFFF, #FFE4B5, #DEB887, #FF8C00, #B22222. *)
Theorem fon_band_exhaustive (temp_c : float) :
  is_finite temp_c = true ->
  (exists b : Band,
      in_band b (value temp_c) /\
      (forall b' : Band, in_band b' (value temp_c) -> b' = b) /\
      fon temp_c = band_color b) /\
  fon (-20) = ColorName "#4682B4" /\ fon (-10) = ColorName "#4682B4" /\
  fon (-5) = ColorName "#B0E0E6" /\ fon 0 = ColorName "#E0FFFF" /\
  fon 10 = ColorName "#FFE4B5" /\ fon 15 = ColorName "#DEB887" /\
  fon 21 = ColorName "#FF8C00" /\ fon 26 = ColorName "#B22222".
Proof.
  intros Hx. split; [ | repeat split; vm_compute; reflexivity ].
  unfold fon.
  cut_at temp_c Hx (-20)%float (-20)%Q; [ band_solve BelowM20 | ].
  cut_at temp_c Hx (-10)%float (-10)%Q; [ band_solve M20toM10 | ].
  cut_at temp_c Hx (-5)%float (-5)%Q; [ band_solve M10toM5 | ].
  cut_at temp_c Hx 0%float 0%Q; [ band_solve M5to0 | ].
  cut_at temp_c Hx 10%float 10%Q; [ band_solve From0to10 | ].
  cut_at temp_c Hx 15%float 15%Q; [ band_solve From10to15 | ].
  cut_at temp_c Hx 21%float 21%Q; [ band_solve From15to21 | ].
  cut_at temp_c Hx 26%float 26%Q; [ band_solve From21to26 | ].
  band_solve From26.
Qed.

(** C10: [fon] is defined on every [double]: NaN fails all eight
    comparisons and gets the last colour #B22222, as does +infinity;
    -infinity gets the first colour #191970; and whatever the input the
    result is one of the nine colours of the palette. *)
Theorem fon_total_on_all_doubles :
  fon nan = ColorName "#B22222" /\
  fon infinity = ColorName "#B22222" /\
  fon neg_infinity = ColorName "#191970" /\
  (forall temp_c : float,
      is_nan temp_c = true -> fon temp_c = ColorName "#B22222") /\
  (forall temp_c : float, fon temp_c ∈ palette).
Proof.
  split; [reflexivity|]. split; [reflexivity|]. split; [reflexivity|]. split.
  - intros temp_c Hnan. unfold fon.
    by rewrite !(nan_ltb temp_c _ Hnan), !(nan_leb temp_c _ Hnan).
  - intros temp_c. unfold fon, palette.
    repeat match goal with
           | |- context [ if ?b then _ else _ ] => destruct b
           end; set_solver.
Qed.

End Fon.

Lemma fon_band_exhaustive_witness :
  Double.is_finite 20 = true /\
  exists b : Band, in_band b (Double.value 20) /\ fon 20 = band_color b.
Proof.
  split; [reflexivity|].
  destruct (fon_band_exhaustive 20 eq_refl) as [(b & Hb & _ & Hc) _].
  exists b. split; [exact Hb | exact Hc].
Defined.

(** At 15 degrees the bands (10,15] and [15,21) of the specification both
    hold, and [fon] returns the colour of the former, not of [15,21). *)
Lemma fon_15_in_two_spec_bands :
  Double.is_finite 15 = true /\
  in_band_spec From10to15 (Double.value 15) /\
  in_band_spec From15to21 (Double.value 15) /\
  From10to15 <> From15to21 /\
  fon 15 = ColorName "#DEB887" /\
  fon 15 <> band_color From15to21.
Proof.
  split; [reflexivity|]. split; [|split; [|split; [|split]]].
  - split; vm_compute; [reflexivity | discriminate].
  - split; vm_compute; [discriminate | reflexivity].
  - discriminate.
  - reflexivity.
  - discriminate.
Qed.

Lemma fon_total_on_all_doubles_witness :
  Double.is_nan (0 / 0) = true /\ fon (0 / 0) = ColorName "#B22222".
Proof.
  split; [reflexivity|].
  exact (proj1 (proj2 (proj2 (proj2 fon_total_on_all_doubles))) (0 / 0)%float
           eq_refl).
Defined.

(** ** The schedule extractor *)

Section ExtractorFacts.
Context {QDateTime : Type}.
Variable fromString : string -> string -> QDateTime.


Lemma object_ref_value (o : gmap string QJsonValue) (key : string) :
  (object_ref o key).1 = default JsonNull (o !! key).
Proof. unfold object_ref. by destruct (o !! key). Qed.

Lemma object_ref_lookup_ne (o : gmap string QJsonValue) (key key' : string) :
  key ≠ key' -> (object_ref o key).2 !! key' = o !! key'.
Proof.
  intros Hne. unfold object_ref. destruct (o !! key); simpl; [done|].
  by rewrite lookup_insert_ne.
Qed.

Lemma toDouble_ref (o : gmap string QJsonValue) (key : string) :
  toDouble (default JsonNull (o !! key)) =
  match o !! key with Some (JsonDouble d) => d | _ => 0%float end.
Proof. by destruct (o !! key) as [[]|]. Qed.

Lemma toString_ref (o : gmap string QJsonValue) (key : string) :
  toString (default JsonNull (o !! key)) =
  toString (default JsonUndefined (o !! key)).
Proof. by destruct (o !! key) as [[]|]. Qed.

Lemma toArray_ref (o : gmap string QJsonValue) (key : string) :
  toArray (default JsonNull (o !! key)) =
  toArray (default JsonUndefined (o !! key)).
Proof. by destruct (o !! key) as [[]|]. Qed.

(** The sample of an entry, field by field. *)
Lemma hour_point_fields (date : string) (hourV : QJsonValue) :
  hour_point fromString date hourV =
  mkWeatherPoint
    (fromString (date +:+ " " +:+ time_field hourV) "yyyy-MM-dd HH:mm:ss")
    (numeric_field hourV "temp") (numeric_field hourV "pressure")
    (numeric_field hourV "humidity") (numeric_field hourV "windspeed").
Proof.
  unfold hour_point, numeric_field, time_field.
  set (h0 := toObject hourV).
  destruct (object_ref h0 "datetime") as [v0 h1] eqn:E0.
  destruct (object_ref h1 "temp") as [v1 h2] eqn:E1.
  destruct (object_ref h2 "pressure") as [v2 h3] eqn:E2.
  destruct (object_ref h3 "humidity") as [v3 h4] eqn:E3.
  destruct (object_ref h4 "windspeed") as [v4 h5] eqn:E4.
  assert (Hv0 : v0 = default JsonNull (h0 !! "datetime"))
    by (rewrite <- object_ref_value, E0; done).
  assert (Hv1 : v1 = default JsonNull (h1 !! "temp"))
    by (rewrite <- object_ref_value, E1; done).
  assert (Hv2 : v2 = default JsonNull (h2 !! "pressure"))
    by (rewrite <- object_ref_value, E2; done).
  assert (Hv3 : v3 = default JsonNull (h3 !! "humidity"))
    by (rewrite <- object_ref_value, E3; done).
  assert (Hv4 : v4 = default JsonNull (h4 !! "windspeed"))
    by (rewrite <- object_ref_value, E4; done).
  assert (H1 : forall k, k ≠ "datetime" -> h1 !! k = h0 !! k).
  { intros k Hk. change h1 with (v0, h1).2. rewrite <- E0.
    by apply object_ref_lookup_ne. }
  assert (H2 : forall k, k ≠ "temp" -> h2 !! k = h1 !! k).
  { intros k Hk. change h2 with (v1, h2).2. rewrite <- E1.
    by apply object_ref_lookup_ne. }
  assert (H3 : forall k, k ≠ "pressure" -> h3 !! k = h2 !! k).
  { intros k Hk. change h3 with (v2, h3).2. rewrite <- E2.
    by apply object_ref_lookup_ne. }
  assert (H4 : forall k, k ≠ "humidity" -> h4 !! k = h3 !! k).
  { intros k Hk. change h4 with (v3, h4).2. rewrite <- E3.
    by apply object_ref_lookup_ne. }
  subst v0 v1 v2 v3 v4.
  rewrite (H4 "windspeed"), (H3 "windspeed"), (H2 "windspeed"),
    (H1 "windspeed") by done.
  rewrite (H3 "humidity"), (H2 "humidity"), (H1 "humidity") by done.
  rewrite (H2 "pressure"), (H1 "pressure") by done.
  rewrite (H1 "temp") by done.
  rewrite !toDouble_ref. f_equal. f_equal. f_equal.
  by destruct (h0 !! "datetime") as [[]|].
Qed.

Lemma int_add_in_range (a b : Z) :
  (INT_MIN <= a + b <= INT_MAX)%Z -> int_add a b = Some (a + b)%Z.
Proof.
  intros [Hlo Hhi]. unfold int_add.
  apply Z.leb_le in Hlo, Hhi. by rewrite Hlo, Hhi.
Qed.

Lemma interval_of_freq_range (freq : string) :
  (1 <= interval_of_freq freq <= 24)%Z.
Proof. unfold interval_of_freq. repeat case_decide; lia. Qed.

Lemma ceil_div_bounds (n k : Z) :
  (0 <= n)%Z -> (1 <= k)%Z ->
  (0 <= ceil_div n k <= n)%Z /\
  (n <= ceil_div n k * k)%Z /\
  ((ceil_div n k - 1) * k < n)%Z.
Proof.
  intros Hn Hk. unfold ceil_div.
  pose proof (Z.mul_div_le (n + k - 1) k ltac:(lia)) as Hle.
  pose proof (Z.mul_succ_div_gt (n + k - 1) k ltac:(lia)) as Hgt.
  pose proof (Z.div_pos (n + k - 1) k ltac:(lia) ltac:(lia)) as Hpos.
  set (c := ((n + k - 1) / k)%Z) in *.
  repeat split; try nia.
Qed.

(** The loop over [hours], run from [i] for the [cnt] iterations left. *)
Lemma hours_loop_run (date : string) (hours : list QJsonValue) (k : Z)
    (cnt : nat) :
  forall (fuel : nat) (i : Z) (result : list (WeatherPoint QDateTime)),
  (1 <= k)%Z -> (0 <= i)%Z -> (cnt <= fuel)%nat ->
  (Z.of_nat (length hours) + k <= INT_MAX + 1)%Z ->
  (Z.of_nat (length hours) <= i + Z.of_nat cnt * k)%Z ->
  (cnt ≠ 0%nat -> i + (Z.of_nat cnt - 1) * k < Z.of_nat (length hours))%Z ->
  hours_loop fromString fuel date hours k i result =
  Some (result ++
        map (fun j => hour_point fromString date
                        (array_at hours (i + Z.of_nat j * k)))
            (seq 0 cnt)).
Proof.
  induction cnt as [|c IH]; intros fuel i result Hk Hi Hfuel Hmax Hend Hlast.
  - assert (Hge : (i <? Z.of_nat (length hours))%Z = false)
      by (apply Z.ltb_ge; lia).
    destruct fuel; simpl; rewrite Hge; by rewrite app_nil_r.
  - destruct fuel as [|fuel]; [lia|].
    specialize (Hlast ltac:(done)).
    assert (Hlt : (i <? Z.of_nat (length hours))%Z = true)
      by (apply Z.ltb_lt; nia).
    simpl hours_loop. rewrite Hlt.
    apply Z.ltb_lt in Hlt.
    rewrite int_add_in_range by (unfold INT_MIN, INT_MAX in *; lia).
    simpl. rewrite IH by (try lia; intros _; nia).
    f_equal. rewrite <- app_assoc. f_equal. simpl. f_equal.
    + f_equal. f_equal. lia.
    + rewrite <- fmap_S_seq, <- list_fmap_compose.
      apply list_fmap_ext. intros _ j _. simpl. f_equal. f_equal. lia.
Qed.

Lemma stride_indices_nil (k : Z) : (1 <= k)%Z -> stride_indices k 0 = [].
Proof.
  intros Hk. unfold stride_indices.
  destruct (ceil_div_bounds 0 k ltac:(lia) Hk) as [Hc _].
  change (Z.of_nat 0) with 0%Z.
  by replace (ceil_div 0 k) with 0%Z by lia.
Qed.

Lemma stride_indices_length (k : Z) (n : nat) :
  length (stride_indices k n) = Z.to_nat (ceil_div (Z.of_nat n) k).
Proof. unfold stride_indices. by rewrite length_map, length_seq. Qed.

(** One day: the samples of its selected hours are appended. *)
Lemma day_body_run (k : Z) (dayV : QJsonValue)
    (result : list (WeatherPoint QDateTime)) :
  (1 <= k <= 24)%Z ->
  (Z.of_nat (length (day_hours dayV)) <= INT_MAX - 24)%Z ->
  day_body fromString k dayV result =
  Some (result ++ day_points fromString k dayV).
Proof.
  intros Hk Hfit. unfold day_body, day_points, day_date, day_hours in *.
  set (day := toObject dayV) in *.
  destruct (object_ref day "datetime") as [v_date day1] eqn:E1.
  assert (Hdate : v_date = default JsonNull (day !! "datetime"))
    by (rewrite <- object_ref_value, E1; done).
  assert (Hhours : day1 !! "hours" = day !! "hours").
  { change day1 with (v_date, day1).2. rewrite <- E1.
    by apply object_ref_lookup_ne. }
  unfold contains. rewrite Hhours. subst v_date. rewrite toString_ref.
  case_bool_decide as Hc; simpl.
  - destruct (object_ref day1 "hours") as [v_hours day2] eqn:E2.
    assert (Hv : v_hours = default JsonNull (day !! "hours"))
      by (rewrite <- Hhours, <- object_ref_value, E2; done).
    subst v_hours. rewrite toArray_ref.
    set (hours := toArray (default JsonUndefined (day !! "hours"))) in *.
    destruct (ceil_div_bounds (Z.of_nat (length hours)) k ltac:(lia) ltac:(lia))
      as (Hc1 & Hc2 & Hc3).
    rewrite (hours_loop_run _ hours k
               (Z.to_nat (ceil_div (Z.of_nat (length hours)) k)));
      unfold INT_MAX in *; try lia.
    f_equal. f_equal. unfold stride_indices.
    rewrite <- list_fmap_compose. apply list_fmap_ext. intros _ j _. simpl.
    f_equal. unfold array_at.
    assert (Hnn : (0 + Z.of_nat j * k <? 0)%Z = false) by (apply Z.ltb_ge; nia).
    rewrite Hnn. f_equal. f_equal. nia.
  - assert (Hnone : day !! "hours" = None).
    { destruct (day !! "hours") eqn:E; [|done]. destruct Hc. by eexists. }
    rewrite Hnone. simpl. rewrite stride_indices_nil by lia.
    by rewrite app_nil_r.
Qed.

Lemma days_loop_run (k : Z) (days : list QJsonValue) :
  forall result : list (WeatherPoint QDateTime),
  (1 <= k <= 24)%Z ->
  Forall (fun dayV => (Z.of_nat (length (day_hours dayV)) <= INT_MAX - 24)%Z)
         days ->
  days_loop fromString k days result =
  Some (result ++ concat (map (day_points fromString k) days)).
Proof.
  induction days as [|dayV days IH]; intros result Hk Hfit; simpl.
  - by rewrite app_nil_r.
  - apply Forall_cons in Hfit as [Hd Hfit].
    rewrite day_body_run by done. simpl.
    rewrite IH by done. by rewrite app_assoc.
Qed.

Lemma parse_days (doc : QJsonDocument) (freq : string) :
  parseVisualCrossingJson fromString doc freq =
  days_loop fromString (interval_of_freq freq) (doc_days doc) [].
Proof.
  unfold parseVisualCrossingJson, doc_days.
  destruct (object_ref (object doc) "days") as [v_days obj] eqn:E.
  assert (Hv : v_days = default JsonNull (object doc !! "days"))
    by (rewrite <- object_ref_value, E; done).
  subst v_days. by rewrite toArray_ref.
Qed.

(** The extraction, day by day. *)
Lemma parse_by_day (doc : QJsonDocument) (freq : string) :
  hours_fit_int doc ->
  parseVisualCrossingJson fromString doc freq =
  Some (concat (map (day_points fromString (interval_of_freq freq))
                    (doc_days doc))).
Proof.
  intros Hfit. rewrite parse_days.
  rewrite days_loop_run; [done | apply interval_of_freq_range | done].
Qed.

Lemma StronglySorted_lookup {A : Type} (R : relation A) (l : list A)
    (i j : nat) (a b : A) :
  StronglySorted R l -> (i < j)%nat ->
  l !! i = Some a -> l !! j = Some b -> R a b.
Proof.
  intros Hs. revert i j. induction Hs as [|x l Hs IH Hall]; intros i j Hij Hi Hj.
  - done.
  - destruct j as [|j]; [lia|]. destruct i as [|i]; simpl in *.
    + injection Hi as <-. rewrite Forall_forall in Hall.
      apply Hall. by eapply list_elem_of_lookup_2.
    + eapply IH; [|done..]. lia.
Qed.

Lemma seq_sorted (s c : nat) : StronglySorted lt (seq s c).
Proof.
  revert s. induction c as [|c IH]; intros s; simpl; constructor; [apply IH|].
  apply Forall_forall. intros x Hx. apply elem_of_seq in Hx. lia.
Qed.

Lemma stride_indices_sorted (k : Z) (n : nat) :
  (1 <= k)%Z -> StronglySorted lt (stride_indices k n).
Proof.
  intros Hk. unfold stride_indices.
  apply (StronglySorted_fmap _ lt lt); [|apply seq_sorted].
  intros a b Hab. nia.
Qed.

Lemma stride_indices_bound (k : Z) (n h : nat) :
  (1 <= k)%Z -> h ∈ stride_indices k n -> (h < n)%nat.
Proof.
  intros Hk. unfold stride_indices. intros Hin.
  apply list_elem_of_fmap in Hin as (j & -> & Hj). apply elem_of_seq in Hj.
  destruct (ceil_div_bounds (Z.of_nat n) k ltac:(lia) Hk) as (Hc & _ & Hlast).
  nia.
Qed.

(** The selected indices are the multiples of the stride below [n]. *)
Lemma stride_indices_spec (k : Z) (n h : nat) :
  (1 <= k)%Z ->
  h ∈ stride_indices k n <->
  (h < n)%nat /\ (Z.of_nat h mod k = 0)%Z.
Proof.
  intros Hk. split.
  - intros Hin. split; [by eapply stride_indices_bound|].
    unfold stride_indices in Hin.
    apply list_elem_of_fmap in Hin as (j & -> & _).
    rewrite Nat2Z.inj_mul, Z2Nat.id by lia. apply Z.mod_mul. lia.
  - intros [Hlt Hmod]. unfold stride_indices.
    apply Z.mod_divide in Hmod as [j Hj]; [|lia].
    destruct (ceil_div_bounds (Z.of_nat n) k ltac:(lia) Hk) as (Hc & Hup & _).
    apply list_elem_of_fmap. exists (Z.to_nat j). split; [nia|].
    apply elem_of_seq. nia.
Qed.

Lemma selected_from_elem (k : Z) (days : list QJsonValue) :
  forall (d d' h : nat),
  (1 <= k)%Z -> (d', h) ∈ selected_from d k days ->
  (d <= d')%nat /\
  exists dayV, days !! (d' - d)%nat = Some dayV /\
               (h < length (day_hours dayV))%nat.
Proof.
  induction days as [|dayV days IH]; intros d d' h Hk Hin; simpl in Hin.
  - by apply elem_of_nil in Hin.
  - apply elem_of_app in Hin as [Hin | Hin].
    + apply list_elem_of_fmap in Hin as (h' & [= -> ->] & Hh).
      split; [lia|]. exists dayV. rewrite Nat.sub_diag. split; [done|].
      by eapply stride_indices_bound.
    + apply IH in Hin as (Hle & dayV' & Hl & Hh); [|done].
      split; [lia|]. exists dayV'. split; [|done].
      replace (d' - d)%nat with (S (d' - S d)) by lia. done.
Qed.

Lemma selected_from_sorted (k : Z) (days : list QJsonValue) :
  forall d : nat, (1 <= k)%Z -> StronglySorted pos_lt (selected_from d k days).
Proof.
  induction days as [|dayV days IH]; intros d Hk; simpl; [constructor|].
  apply StronglySorted_app; split_and!.
  - intros p q Hp Hq. destruct q as [d' h'].
    apply list_elem_of_fmap in Hp as (h & -> & _).
    apply selected_from_elem in Hq as [Hle _]; [|done].
    left. simpl. lia.
  - apply (StronglySorted_fmap _ lt pos_lt); [|by apply stride_indices_sorted].
    intros a b Hab. right. simpl. done.
  - by apply IH.
Qed.

Lemma selected_from_length (k : Z) (days : list QJsonValue) :
  forall d : nat, (1 <= k)%Z ->
  (length (selected_from d k days) <= total_hours days)%nat.
Proof.
  induction days as [|dayV days IH]; intros d Hk; simpl; [done|].
  rewrite length_app, length_map, stride_indices_length.
  specialize (IH (S d) Hk). unfold total_hours in *. simpl.
  destruct (ceil_div_bounds (Z.of_nat (length (day_hours dayV))) k
              ltac:(lia) Hk) as (Hc & _).
  lia.
Qed.

(** The samples of the days are the samples of the selected positions. *)
Lemma selected_from_samples (k : Z) (days : list QJsonValue) :
  forall pre : list QJsonValue,
  map (sample_at fromString (pre ++ days)) (selected_from (length pre) k days) =
  concat (map (day_points fromString k) days).
Proof.
  induction days as [|dayV days IH]; intros pre; simpl; [done|].
  rewrite map_app. f_equal.
  - rewrite <- list_fmap_compose. unfold day_points.
    apply list_fmap_ext. intros _ h _. unfold sample_at. simpl.
    by rewrite list_lookup_middle.
  - specialize (IH (pre ++ [dayV])).
    rewrite <- app_assoc, length_app in IH. simpl in IH.
    by rewrite Nat.add_1_r in IH.
Qed.


Lemma days_loop_app (k : Z) (days1 days2 : list QJsonValue) :
  forall result : list (WeatherPoint QDateTime),
  days_loop fromString k (days1 ++ days2) result =
  days_loop fromString k days1 result ≫= days_loop fromString k days2.
Proof.
  induction days1 as [|dayV days1 IH]; intros result; simpl; [done|].
  destruct (day_body fromString k dayV result) as [result'|]; simpl; [|done].
  apply IH.
Qed.

Lemma day_body_no_hours (k : Z) (dayV : QJsonValue)
    (result : list (WeatherPoint QDateTime)) :
  toObject dayV !! "hours" = None ->
  day_body fromString k dayV result = Some result.
Proof.
  intros Hnone. unfold day_body.
  destruct (object_ref (toObject dayV) "datetime") as [v_date day1] eqn:E1.
  assert (Hhours : day1 !! "hours" = None).
  { change day1 with (v_date, day1).2. rewrite <- E1.
    by rewrite object_ref_lookup_ne. }
  unfold contains. rewrite Hhours.
  rewrite bool_decide_eq_false_2; [done|]. by intros [v Hv].
Qed.

Lemma doc_days_insert (o : gmap string QJsonValue) (days : list QJsonValue) :
  doc_days (DocObject (<["days" := JsonArray days]> o)) = days.
Proof. unfold doc_days. simpl. by rewrite lookup_insert_eq. Qed.

Lemma parse_no_days (doc : QJsonDocument) (freq : string) :
  doc_days doc = [] -> parseVisualCrossingJson fromString doc freq = Some [].
Proof. intros Hd. by rewrite parse_days, Hd. Qed.

(** The extraction, position by position. *)
Lemma parse_by_position (doc : QJsonDocument) (freq : string) :
  hours_fit_int doc ->
  parseVisualCrossingJson fromString doc freq =
  Some (map (sample_at fromString (doc_days doc))
            (selected (interval_of_freq freq) (doc_days doc))).
Proof.
  intros Hfit. rewrite parse_by_day by done. f_equal. symmetry.
  apply (selected_from_samples (interval_of_freq freq) (doc_days doc) []).
Qed.

(** C4: the five recognised interval strings give the strides 1, 3, 6, 12
    and 24; the extraction is the concatenation, day by day, of the samples
    of the hours whose index is a multiple of the interval, so that a day
    of n hourly entries contributes ceil (n / interval) samples; and an
    unrecognised string gives the stride 1 and the output of "1h". *)
Theorem extract_stride_length (doc : QJsonDocument) :
  hours_fit_int doc ->
  interval_of_freq "1h" = 1%Z /\ interval_of_freq "3h" = 3%Z /\
  interval_of_freq "6h" = 6%Z /\ interval_of_freq "12h" = 12%Z /\
  interval_of_freq "1d" = 24%Z /\
  (forall freq : string,
      parseVisualCrossingJson fromString doc freq =
      Some (concat (map (day_points fromString (interval_of_freq freq))
                        (doc_days doc))) /\
      forall dayV : QJsonValue,
        let n := Z.of_nat (length (day_hours dayV)) in
        let c := Z.of_nat (length (day_points fromString
                                     (interval_of_freq freq) dayV)) in
        c = ceil_div n (interval_of_freq freq) /\
        ((c - 1) * interval_of_freq freq < n <= c * interval_of_freq freq)%Z /\
        forall h : nat,
          h ∈ stride_indices (interval_of_freq freq) (length (day_hours dayV)) <->
          (h < length (day_hours dayV))%nat /\
          (Z.of_nat h mod interval_of_freq freq = 0)%Z) /\
  (forall freq : string,
      freq ∉ recognized_freqs ->
      interval_of_freq freq = 1%Z /\
      parseVisualCrossingJson fromString doc freq =
      parseVisualCrossingJson fromString doc "1h").
Proof.
  intros Hfit. do 5 (split; [reflexivity|]). split.
  - intros freq. split; [by apply parse_by_day|].
    intros dayV n c.
    pose proof (interval_of_freq_range freq) as Hk.
    destruct (ceil_div_bounds n (interval_of_freq freq) ltac:(lia) ltac:(lia))
      as (Hc & Hup & Hlo).
    assert (Hceil : c = ceil_div n (interval_of_freq freq)).
    { unfold c, day_points. rewrite length_map, stride_indices_length.
      fold n. lia. }
    rewrite Hceil. split; [done|]. split; [lia|].
    intros h. apply stride_indices_spec. lia.
  - intros freq Hnot.
    assert (Hk : interval_of_freq freq = 1%Z).
    { unfold interval_of_freq. unfold recognized_freqs in Hnot.
      repeat case_decide; try done; subst; exfalso; apply Hnot; set_solver. }
    split; [done|]. by rewrite !parse_days, Hk.
Qed.

(** C5: the extraction follows the source order.  Its output is the list of
    the samples of the selected source positions (day index, hour index);
    of two output positions the earlier comes from an earlier day, or from
    the same day and a strictly smaller hour index; every position names an
    hourly entry of the document; and the output is no longer than the
    number of hourly entries of all days. *)
Theorem extract_preserves_order (doc : QJsonDocument) (freq : string) :
  hours_fit_int doc ->
  let days := doc_days doc in
  let src := selected (interval_of_freq freq) days in
  parseVisualCrossingJson fromString doc freq =
    Some (map (sample_at fromString days) src) /\
  (forall (i j di hi dj hj : nat),
      (i < j)%nat -> src !! i = Some (di, hi) -> src !! j = Some (dj, hj) ->
      (di <= dj)%nat /\ (di = dj -> (hi < hj)%nat)) /\
  (forall d h : nat,
      (d, h) ∈ src ->
      exists dayV, days !! d = Some dayV /\ (h < length (day_hours dayV))%nat) /\
  (length (map (sample_at fromString days) src) <= total_hours days)%nat.
Proof.
  intros Hfit days src.
  pose proof (interval_of_freq_range freq) as Hk.
  split; [by apply parse_by_position|]. split; [|split].
  - intros i j di hi dj hj Hij Hi Hj.
    assert (Hlt : pos_lt (di, hi) (dj, hj)).
    { eapply StronglySorted_lookup; [|exact Hij|exact Hi|exact Hj].
      apply selected_from_sorted. lia. }
    destruct Hlt as [Hlt | [Heq Hlt]]; simpl in *; lia.
  - intros d h Hin.
    apply selected_from_elem in Hin as (_ & dayV & Hl & Hh); [|lia].
    rewrite Nat.sub_0_r in Hl. by exists dayV.
  - rewrite length_map. apply selected_from_length. lia.
Qed.

(** C6: a null document (what the JSON decoder returns on malformed or
    scalar text), a document holding an array, and an object whose "days"
    is missing or not an array all give the empty sequence. *)
Theorem extract_malformed_empty (freq : string) :
  parseVisualCrossingJson fromString DocNull freq = Some [] /\
  (forall a : list QJsonValue,
      parseVisualCrossingJson fromString (DocArray a) freq = Some []) /\
  (forall o : gmap string QJsonValue,
      (forall a : list QJsonValue, o !! "days" ≠ Some (JsonArray a)) ->
      parseVisualCrossingJson fromString (DocObject o) freq = Some []).
Proof.
  split; [by apply parse_no_days|]. split.
  - intros a. by apply parse_no_days.
  - intros o Hdays. apply parse_no_days. unfold doc_days. simpl.
    destruct (o !! "days") as [[]|] eqn:E; try done.
    by destruct (Hdays a).
Qed.

(** C7: a day entry without the "hours" key leaves the result as it is,
    and the extraction goes on: the output is that of the document without
    this day. *)
Theorem extract_skips_day_without_hours (o : gmap string QJsonValue)
    (days1 days2 : list QJsonValue) (dayV : QJsonValue) (freq : string) :
  toObject dayV !! "hours" = None ->
  (forall result : list (WeatherPoint QDateTime),
      day_body fromString (interval_of_freq freq) dayV result = Some result) /\
  parseVisualCrossingJson fromString
    (DocObject (<["days" := JsonArray (days1 ++ dayV :: days2)]> o)) freq =
  parseVisualCrossingJson fromString
    (DocObject (<["days" := JsonArray (days1 ++ days2)]> o)) freq.
Proof.
  intros Hnone. split; [intros result; by apply day_body_no_hours|].
  rewrite !parse_days, !doc_days_insert, !days_loop_app.
  destruct (days_loop fromString (interval_of_freq freq) days1 [])
    as [result|]; simpl; [|done].
  by rewrite day_body_no_hours.
Qed.

(** C8: every selected hourly entry gives exactly one sample, at its place
    in the output.  The sample carries whatever timestamp the parser
    returns for the date, a space and the time string under the layout
    yyyy-MM-dd HH:mm:ss, valid or not, and each of the four numbers is the
    one stored under its key, zero when the key is absent or holds no
    number. *)
Theorem extract_one_sample_per_entry (doc : QJsonDocument) (freq : string) :
  hours_fit_int doc ->
  let days := doc_days doc in
  let src := selected (interval_of_freq freq) days in
  (exists result : list (WeatherPoint QDateTime),
      parseVisualCrossingJson fromString doc freq = Some result /\
      length result = length src /\
      forall (i : nat) (pos : nat * nat),
        src !! i = Some pos ->
        result !! i = Some (sample_at fromString days pos)) /\
  (forall (date : string) (hourV : QJsonValue),
      hour_point fromString date hourV =
      mkWeatherPoint
        (fromString (date +:+ " " +:+ time_field hourV) "yyyy-MM-dd HH:mm:ss")
        (numeric_field hourV "temp") (numeric_field hourV "pressure")
        (numeric_field hourV "humidity") (numeric_field hourV "windspeed")) /\
  (forall (hourV : QJsonValue) (key : string),
      toObject hourV !! key = None \/
      (exists v, toObject hourV !! key = Some v /\ forall d, v ≠ JsonDouble d) ->
      numeric_field hourV key = 0%float) /\
  (forall (isValid : QDateTime -> bool) (date : string) (hourV : QJsonValue),
      isValid (fromString (date +:+ " " +:+ time_field hourV)
                 "yyyy-MM-dd HH:mm:ss") = false ->
      isValid (datetime (hour_point fromString date hourV)) = false).
Proof.
  intros Hfit days src. split; [|split; [|split]].
  - exists (map (sample_at fromString days) src).
    split; [by apply parse_by_position|]. split; [by rewrite length_map|].
    intros i pos Hi. by rewrite list_lookup_fmap, Hi.
  - apply hour_point_fields.
  - intros hourV key [Hnone | (v & Hv & Hnum)]; unfold numeric_field.
    + by rewrite Hnone.
    + rewrite Hv. destruct v; try done. by destruct (Hnum d).
  - intros isValid date hourV Hinv. by rewrite hour_point_fields.
Qed.

End ExtractorFacts.

Lemma test_document_fits : hours_fit_int test_document.
Proof. unfold hours_fit_int. repeat constructor. by vm_compute. Defined.

Lemma extract_stride_length_witness :
  hours_fit_int test_document /\
  parseVisualCrossingJson (fun text _ => text) test_document "1d" =
  Some (concat (map (day_points (fun text _ => text) 24)
                    (doc_days test_document))).
Proof.
  pose proof test_document_fits as Hfit.
  split; [exact Hfit|].
  exact (proj1 (proj1 (proj2 (proj2 (proj2 (proj2 (proj2
    (extract_stride_length (fun text _ => text) test_document Hfit)))))) "1d")).
Defined.

Lemma extract_preserves_order_witness :
  hours_fit_int test_document /\
  parseVisualCrossingJson (fun text _ => text) test_document "1h" =
  Some (map (sample_at (fun text _ => text) (doc_days test_document))
            (selected 1 (doc_days test_document))).
Proof.
  split; [exact test_document_fits|].
  exact (proj1 (extract_preserves_order (fun text _ => text) test_document
                  "1h" test_document_fits)).
Defined.

Lemma extract_skips_day_without_hours_witness :
  parseVisualCrossingJson (fun text _ => text)
    (DocObject (<["days" := JsonArray ([test_day] ++ JsonNull :: [test_day])]> ∅))
    "1h" =
  parseVisualCrossingJson (fun text _ => text)
    (DocObject (<["days" := JsonArray ([test_day] ++ [test_day])]> ∅)) "1h".
Proof.
  exact (proj2 (extract_skips_day_without_hours (fun text _ => text) ∅
                  [test_day] [test_day] JsonNull "1h" eq_refl)).
Defined.

Lemma extract_one_sample_per_entry_witness :
  hours_fit_int test_document /\
  exists result : list (WeatherPoint string),
    parseVisualCrossingJson (fun text _ => text) test_document "1h" =
    Some result /\
    length result = length (selected 1 (doc_days test_document)).
Proof.
  split; [exact test_document_fits|].
  destruct (extract_one_sample_per_entry (fun text _ => text) test_document
              "1h" test_document_fits) as [(result & Hp & Hl & _) _].
  exists result. split; [exact Hp | exact Hl].
Defined.

Lemma extract_malformed_empty_witness :
  parseVisualCrossingJson (fun text _ => text)
    (DocObject {["days" := JsonString "none"]}) "1h" = Some [].
Proof.
  refine (proj2 (proj2 (extract_malformed_empty (fun text _ => text) "1h"))
            {["days" := JsonString "none"]} _).
  intros a. rewrite lookup_singleton_eq. discriminate.
Defined.

(** The parser test of the repository: two samples, the first at
    2023-01-01 00:00:00 with temperature 10, the second with humidity 81. *)
Example test_json_parser :
  exists p0 p1 : WeatherPoint string,
    parseVisualCrossingJson (fun text _ => text) test_document "1h" =
      Some [p0; p1] /\
    datetime p0 = "2023-01-01 00:00:00" /\
    temperature p0 = 10%float /\ humidity p1 = 81%float.
Proof. do 2 eexists. split; [by vm_compute|]. by vm_compute. Qed.

(** The empty-document test of the repository. *)
Example test_empty_json :
  parseVisualCrossingJson (fun text _ => text) DocNull "1h" = Some [].
Proof. reflexivity. Qed.

(** ** The series statistics *)

Section StatisticsFacts.
Import Double DoubleFacts.











End StatisticsFacts.


(** ** The chart *)

Section ChartFacts.
Import Double DoubleFacts.
Context {QDateTime : Type}.
Variable fromMSecsSinceEpoch : Z -> QDateTime.
Variable toMSecsSinceEpoch : QDateTime -> Z.

Lemma deviation_series_eq (xys : list QPointF) (name : string)
    (color : QColor) (showDeviation : bool) (freq : string) :
  deviation_series
    (plotLineStat fromMSecsSinceEpoch toMSecsSinceEpoch xys name color
       showDeviation freq) =
  if showDeviation && (0 <? stddev (map py xys))%float
  then [ upper_series fromMSecsSinceEpoch toMSecsSinceEpoch xys;
         lower_series fromMSecsSinceEpoch toMSecsSinceEpoch xys ]
  else [].
Proof. reflexivity. Qed.

(** A standard deviation equal to zero is not greater than zero. *)
Lemma eqb_zero_not_pos (x : float) :
  (x =? 0)%float = true -> (0 <? x)%float = false.
Proof.
  rewrite FloatAxioms.eqb_spec, ltb_spec. unfold SFeqb, SFltb.
  change (Prim2SF 0) with (S754_zero false).
  by destruct (Prim2SF x) as [s | [] | | [] m e].
Qed.


(** C9: the chart holds the data line and the mean line, followed by the
    two band lines "+σ" and "-σ" exactly when the deviation display is
    asked for and the standard deviation is greater than zero; with a
    standard deviation equal to zero there is no band line, and the chart
    is built all the same. *)
Theorem deviation_band_iff_positive_stddev (xys : list QPointF)
    (name : string) (color : QColor) (showDeviation : bool) (freq : string) :
  let chart := plotLineStat fromMSecsSinceEpoch toMSecsSinceEpoch xys name
                 color showDeviation freq in
  let sd := stddev (map py xys) in
  (exists meanL : QLineSeries,
      chart_series chart =
      [data_series xys name color; meanL] ++ deviation_series chart) /\
  (deviation_series chart =
     [ upper_series fromMSecsSinceEpoch toMSecsSinceEpoch xys;
       lower_series fromMSecsSinceEpoch toMSecsSinceEpoch xys ] <->
   showDeviation = true /\ (0 <? sd)%float = true) /\
  (deviation_series chart = [] <->
   showDeviation = false \/ (0 <? sd)%float = false) /\
  ((sd =? 0)%float = true -> deviation_series chart = []).
Proof.
  intros chart sd. split; [by eexists|].
  unfold chart. rewrite deviation_series_eq. fold sd.
  split; [|split].
  - destruct showDeviation, (0 <? sd)%float; simpl; split;
      first [ done | by intros [? ?] ].
  - destruct showDeviation, (0 <? sd)%float; simpl; split;
      first [ done | by intros [? | ?] | by left | by right ].
  - intros Hz. rewrite (eqb_zero_not_pos sd Hz). by rewrite andb_false_r.
Qed.


End ChartFacts.


(** * Further properties of the program *)

(** ** The palette is ordered by temperature *)

Section FonMore.
Import Double DoubleFacts.

Ltac cut_band x Hx c z :=
  let H := fresh "Hcut" in
  lazymatch goal with
  | |- context [ (x <? c)%float ] =>
      pose proof (ltb_const x c z Hx eq_refl (const_value c z eq_refl)) as H;
      destruct (x <? c)%float
  | |- context [ (x <=? c)%float ] =>
      pose proof (leb_const x c z Hx eq_refl (const_value c z eq_refl)) as H;
      destruct (x <=? c)%float
  end.

(** The band of a finite temperature, and its colour. *)
Lemma fon_band (temp_c : float) :
  is_finite temp_c = true ->
  exists b : Band, in_band b (value temp_c) /\ fon temp_c = band_color b.
Proof.
  intros Hx. unfold fon.
  cut_band temp_c Hx (-20)%float (-20)%Q;
    [ exists BelowM20; split; [simpl; lra | done] | ].
  cut_band temp_c Hx (-10)%float (-10)%Q;
    [ exists M20toM10; split; [simpl; lra | done] | ].
  cut_band temp_c Hx (-5)%float (-5)%Q;
    [ exists M10toM5; split; [simpl; lra | done] | ].
  cut_band temp_c Hx 0%float 0%Q;
    [ exists M5to0; split; [simpl; lra | done] | ].
  cut_band temp_c Hx 10%float 10%Q;
    [ exists From0to10; split; [simpl; lra | done] | ].
  cut_band temp_c Hx 15%float 15%Q;
    [ exists From10to15; split; [simpl; lra | done] | ].
  cut_band temp_c Hx 21%float 21%Q;
    [ exists From15to21; split; [simpl; lra | done] | ].
  cut_band temp_c Hx 26%float 26%Q;
    [ exists From21to26; split; [simpl; lra | done] | ].
  exists From26. split; [simpl; lra | done].
Qed.

(** X1: a colder temperature never gets a hotter colour, and two
    temperatures that compare equal (such as -0.0 and 0.0) get the same
    colour. *)
Theorem fon_monotone (x y : float) :
  is_finite x = true -> is_finite y = true ->
  ((x <=? y)%float = true -> (palette_rank (fon x) <= palette_rank (fon y))%nat) /\
  ((x =? y)%float = true -> fon x = fon y).
Proof.
  intros Hx Hy.
  destruct (fon_band x Hx) as (bx & Hbx & ->).
  destruct (fon_band y Hy) as (by' & Hby & ->).
  split.
  - intros Hle. apply (leb_value x y Hx Hy) in Hle.
    destruct bx, by'; simpl in Hbx, Hby;
      first [ vm_compute; lia | exfalso; lra ].
  - intros Heq. rewrite FloatAxioms.eqb_spec in Heq. unfold SFeqb in Heq.
    rewrite (compare_value x y Hx Hy) in Heq.
    assert (Hv : (value x == value y)%Q).
    { apply Qeq_alt. by destruct (value x ?= value y)%Q. }
    destruct bx, by'; simpl in Hbx, Hby;
      first [ reflexivity | exfalso; lra ].
Qed.

End FonMore.

Lemma fon_monotone_witness :
  (palette_rank (fon (-3)) <= palette_rank (fon 17.5))%nat /\
  fon (-0) = fon 0.
Proof.
  split.
  - exact (proj1 (fon_monotone (-3) 17.5 eq_refl eq_refl) eq_refl).
  - exact (proj2 (fon_monotone (-0) 0 eq_refl eq_refl) eq_refl).
Defined.

(** ** Integers and square roots in binary64 *)

Section DoubleMore.
Import Double DoubleFacts.

Lemma iter_xO_spec (m k : positive) :
  Zpos (Pos.iter xO m k) = (Zpos m * 2 ^ Zpos k)%Z /\
  digits2_pos (Pos.iter xO m k) = (digits2_pos m + k)%positive.
Proof.
  induction k as [|k IH] using Pos.peano_ind.
  - simpl. split; lia.
  - rewrite Pos.iter_succ. destruct IH as [IHv IHd]. split.
    + rewrite Pos2Z.inj_xO, IHv, Pos2Z.inj_succ, Z.pow_succ_r by lia. lia.
    + simpl. rewrite IHd. lia.
Qed.

Lemma digits_le_53 (m : positive) :
  (Zpos m < 2 ^ 53)%Z -> (Zpos (digits2_pos m) <= 53)%Z.
Proof.
  intros Hm. pose proof (digits2_pos_bounds m) as [Hlo _].
  destruct (Z_le_gt_dec (Zpos (digits2_pos m)) 53) as [|Hgt]; [done|].
  assert (2 ^ 53 <= 2 ^ (Zpos (digits2_pos m) - 1))%Z
    by (apply Z.pow_le_mono_r; lia).
  lia.
Qed.

(** An integer below 2^53 in magnitude is a binary64 number. *)
Lemma binary_round_small (s : bool) (m : positive) :
  (Zpos m < 2 ^ 53)%Z ->
  exists (m' : positive) (e' : Z),
    binary_round prec emax s m 0 = S754_finite s m' e' /\
    SpecFloat.bounded prec emax m' e' = true /\
    SFtrunc (S754_finite s m' e') = Some (if s then Zneg m else Zpos m).
Proof.
  intros Hm. pose proof (digits_le_53 m Hm) as Hd.
  unfold binary_round.
  set (d := Zpos (digits2_pos m)) in *.
  assert (Hdpos : (0 < d)%Z) by (unfold d; lia).
  replace (fexp prec emax (d + 0)) with (d - 53)%Z
    by (unfold fexp, emin, emax, prec; lia).
  unfold shl_align. rewrite Z.sub_0_r.
  destruct (d - 53)%Z as [|p|k] eqn:Ek; [| lia |].
  - assert (Hb : SpecFloat.bounded prec emax m 0 = true).
    { unfold SpecFloat.bounded, canonical_mantissa. fold d.
      replace (fexp prec emax (d + 0)) with 0%Z
        by (unfold fexp, emin, emax, prec; lia).
      reflexivity. }
    exists m, 0%Z. rewrite binary_round_aux_exact by done.
    split; [done|]. split; [done|]. simpl. rewrite Z.mul_1_r.
    by destruct s.
  - destruct (iter_xO_spec m k) as [Hv Hdig].
    assert (Hb : SpecFloat.bounded prec emax (Pos.iter xO m k) (Zneg k) = true).
    { unfold SpecFloat.bounded, canonical_mantissa. rewrite Hdig.
      rewrite Pos2Z.inj_add. fold d.
      replace (fexp prec emax (d + Zpos k + Zneg k)) with (Zneg k)
        by (unfold fexp, emin, emax, prec; lia).
      rewrite Z.eqb_refl. simpl. apply Z.leb_le. unfold emax, prec. lia. }
    exists (Pos.iter xO m k), (Zneg k). rewrite binary_round_aux_exact by done.
    split; [done|]. split; [done|]. unfold SFtrunc.
    rewrite Hv, Z.div_mul by lia. by destruct s.
Qed.

(** A timestamp survives the conversion to [double] and back. *)
Lemma qint64_roundtrip (z : Z) :
  (- 2 ^ 53 < z < 2 ^ 53)%Z -> to_qint64 (of_qint64 z) = z.
Proof.
  intros Hz. unfold to_qint64, of_qint64.
  destruct z as [|m|m].
  - reflexivity.
  - destruct (binary_round_small false m ltac:(lia)) as (m' & e' & Hr & Hb & Ht).
    simpl binary_normalize. rewrite Hr, Prim2SF_SF2Prim by done.
    rewrite Ht. unfold INT64_MIN, INT64_MAX.
    rewrite andb_true_intro; [done|]. split; apply Z.leb_le; lia.
  - destruct (binary_round_small true m ltac:(lia)) as (m' & e' & Hr & Hb & Ht).
    simpl binary_normalize. rewrite Hr, Prim2SF_SF2Prim by done.
    rewrite Ht. unfold INT64_MIN, INT64_MAX.
    rewrite andb_true_intro; [done|]. split; apply Z.leb_le; lia.
Qed.

Lemma binary_round_aux_nonneg (m e : Z) (l : location) :
  SF_nonneg (binary_round_aux prec emax false m e l) = true.
Proof.
  unfold binary_round_aux.
  destruct (shr_fexp prec emax m e l) as [mrs' e'].
  destruct (shr_fexp prec emax _ e' loc_Exact) as [mrs'' e''].
  destruct (shr_m mrs''); [done| |done].
  by destruct (e'' <=? emax - prec)%Z.
Qed.

Lemma SFsqrt_nonneg (f : spec_float) : SF_nonneg (SF64sqrt f) = true.
Proof.
  unfold SF64sqrt, SFsqrt. destruct f as [s | [] | | [] m e]; try done.
  destruct (SFsqrt_core_binary prec emax (Zpos m) e) as [[mz ez] lz].
  apply binary_round_aux_nonneg.
Qed.

Lemma SF_nonneg_not_ltb_zero (f : spec_float) :
  SF_nonneg f = true -> SFltb f (S754_zero false) = false.
Proof. by destruct f as [s | [] | | [] m e]. Qed.

Lemma sqrt_not_negative (x : float) : (PrimFloat.sqrt x <? 0)%float = false.
Proof.
  rewrite ltb_spec, sqrt_spec. change (Prim2SF 0) with (S754_zero false).
  apply SF_nonneg_not_ltb_zero, SFsqrt_nonneg.
Qed.

(** The standard deviation is never below zero, whatever the values. *)
Lemma stddev_not_negative (values : list float) :
  (stddev values <? 0)%float = false.
Proof. unfold stddev. apply sqrt_not_negative. Qed.

End DoubleMore.

(** ** More on the schedule extractor *)

Section ExtractorMore.
Import Double DoubleFacts.
Context {QDateTime : Type}.
Variable fromString : string -> string -> QDateTime.

Lemma hours_loop_acc (date : string) (hours : list QJsonValue) (k : Z)
    (fuel : nat) :
  forall (i : Z) (result : list (WeatherPoint QDateTime)),
  hours_loop fromString fuel date hours k i result =
  (result ++.) <$> hours_loop fromString fuel date hours k i [].
Proof.
  induction fuel as [|fuel IH]; intros i result; simpl.
  - destruct (i <? Z.of_nat (length hours))%Z; simpl; [done|].
    by rewrite app_nil_r.
  - destruct (i <? Z.of_nat (length hours))%Z; simpl; [|by rewrite app_nil_r].
    destruct (int_add i k) as [i'|]; simpl; [|done].
    rewrite IH, (IH i' [_]).
    destruct (hours_loop fromString fuel date hours k i' []); simpl; [|done].
    by rewrite <- app_assoc.
Qed.

Lemma day_body_acc (k : Z) (dayV : QJsonValue)
    (result : list (WeatherPoint QDateTime)) :
  day_body fromString k dayV result =
  (result ++.) <$> day_body fromString k dayV [].
Proof.
  unfold day_body.
  destruct (object_ref (toObject dayV) "datetime") as [v_date day1].
  destruct (negb (contains day1 "hours")); simpl; [by rewrite app_nil_r|].
  destruct (object_ref day1 "hours") as [v_hours day2].
  apply hours_loop_acc.
Qed.

Lemma days_loop_acc (k : Z) (days : list QJsonValue) :
  forall result : list (WeatherPoint QDateTime),
  days_loop fromString k days result =
  (result ++.) <$> days_loop fromString k days [].
Proof.
  induction days as [|dayV days IH]; intros result; simpl.
  - by rewrite app_nil_r.
  - rewrite day_body_acc.
    destruct (day_body fromString k dayV []) as [r|]; simpl; [|done].
    rewrite IH, (IH r).
    destruct (days_loop fromString k days []); simpl; [|done].
    by rewrite app_assoc.
Qed.

(** X2: the stride starts afresh with every day: extracting from the days
    of two documents put one after the other gives the two outputs, one
    after the other. *)
Theorem extract_distributes_over_days (o : gmap string QJsonValue)
    (days1 days2 : list QJsonValue) (freq : string) :
  parseVisualCrossingJson fromString
    (DocObject (<["days" := JsonArray (days1 ++ days2)]> o)) freq =
  r1 ← parseVisualCrossingJson fromString
         (DocObject (<["days" := JsonArray days1]> o)) freq;
  r2 ← parseVisualCrossingJson fromString
         (DocObject (<["days" := JsonArray days2]> o)) freq;
  Some (r1 ++ r2).
Proof.
  rewrite !parse_days, !doc_days_insert, days_loop_app.
  destruct (days_loop fromString (interval_of_freq freq) days1 []) as [r1|];
    simpl; [|done].
  rewrite days_loop_acc.
  by destruct (days_loop fromString (interval_of_freq freq) days2 []).
Qed.

Lemma stride_indices_one (n : nat) : stride_indices 1 n = seq 0 n.
Proof.
  unfold stride_indices, ceil_div.
  replace (Z.of_nat n + 1 - 1)%Z with (Z.of_nat n) by lia.
  rewrite Z.div_1_r, Nat2Z.id. change (Z.to_nat 1) with 1%nat.
  rewrite <- (list_fmap_id (seq 0 n)) at 2.
  apply list_fmap_ext. intros _ j _. simpl. lia.
Qed.

Lemma day_points_one (dayV : QJsonValue) :
  day_points fromString 1 dayV =
  map (hour_point fromString (day_date dayV)) (day_hours dayV).
Proof.
  unfold day_points. rewrite stride_indices_one.
  apply list_eq. intros i. rewrite !list_lookup_fmap.
  destruct (day_hours dayV !! i) as [hourV|] eqn:E; simpl.
  - rewrite lookup_seq_lt by (by eapply lookup_lt_Some). simpl. by rewrite E.
  - rewrite lookup_seq_ge; [done|]. by apply lookup_ge_None.
Qed.

Lemma all_samples_length (days : list QJsonValue) :
  length (all_samples fromString days) = total_hours days.
Proof.
  unfold all_samples, total_hours.
  induction days as [|dayV days IH]; simpl; [done|].
  by rewrite length_app, length_map, IH.
Qed.

(** The intervals above one hour are asked for by four strings only. *)
Lemma interval_of_freq_hourly (freq : string) :
  freq ∉ ["3h"; "6h"; "12h"; "1d"] -> interval_of_freq freq = 1%Z.
Proof.
  intros Hnot. unfold interval_of_freq.
  repeat case_decide; try done; exfalso; apply Hnot; subst freq;
    repeat (apply elem_of_cons; first [ by left | right ]).
Qed.

(** The extraction at stride 1. *)
Lemma parse_stride_one (doc : QJsonDocument) (freq : string) :
  hours_fit_int doc -> interval_of_freq freq = 1%Z ->
  parseVisualCrossingJson fromString doc freq =
  Some (all_samples fromString (doc_days doc)).
Proof.
  intros Hfit Hk.
  rewrite parse_by_day, Hk by done. f_equal. unfold all_samples. f_equal.
  apply list_fmap_ext. intros _ dayV _. apply day_points_one.
Qed.

(** X3: at the frequency 1h, and at every frequency string that is not
    one of 3h, 6h, 12h and 1d, nothing is left out: the output is every
    hourly entry of every day, in document order. *)
Theorem extract_every_hour_at_stride_one (doc : QJsonDocument) (freq : string) :
  hours_fit_int doc -> freq ∉ ["3h"; "6h"; "12h"; "1d"] ->
  parseVisualCrossingJson fromString doc freq =
    Some (all_samples fromString (doc_days doc)) /\
  length (all_samples fromString (doc_days doc)) = total_hours (doc_days doc).
Proof.
  intros Hfit Hfreq. split; [|apply all_samples_length].
  apply parse_stride_one; [done | by apply interval_of_freq_hourly].
Qed.

Lemma test_day_body_spec (dayV : QJsonValue)
    (result : list (WeatherPoint QDateTime)) :
  test_day_body fromString result dayV =
  result ++ map (hour_point fromString (day_date dayV)) (day_hours dayV).
Proof.
  unfold test_day_body, day_date, day_hours.
  set (day := toObject dayV).
  destruct (object_ref day "datetime") as [v_date day1] eqn:E1.
  assert (Hdate : v_date = default JsonNull (day !! "datetime"))
    by (rewrite <- object_ref_value, E1; done).
  assert (Hhours : day1 !! "hours" = day !! "hours").
  { change day1 with (v_date, day1).2. rewrite <- E1.
    by apply object_ref_lookup_ne. }
  unfold contains. rewrite Hhours. subst v_date. rewrite toString_ref.
  case_bool_decide as Hc; simpl.
  - destruct (object_ref day1 "hours") as [v_hours day2] eqn:E2.
    assert (Hv : v_hours = default JsonNull (day !! "hours"))
      by (rewrite <- Hhours, <- object_ref_value, E2; done).
    subst v_hours. rewrite toArray_ref.
    generalize (toArray (default JsonUndefined (day !! "hours"))) as hours.
    intros hours. revert result.
    induction hours as [|hourV hours IH]; intros result; simpl.
    + by rewrite app_nil_r.
    + rewrite IH. by rewrite <- app_assoc.
  - assert (Hnone : day !! "hours" = None).
    { destruct (day !! "hours") eqn:E; [|done]. destruct Hc. by eexists. }
    rewrite Hnone. simpl. by rewrite app_nil_r.
Qed.

Lemma test_parse_spec (doc : QJsonDocument) (freq : string) :
  test_parseVisualCrossingJson fromString doc freq = all_samples fromString (doc_days doc).
Proof.
  unfold test_parseVisualCrossingJson, doc_days, all_samples.
  destruct doc as [|a|o]; simpl; [done..|].
  destruct (object_ref o "days") as [v_days obj] eqn:E.
  assert (Hv : v_days = default JsonNull (o !! "days"))
    by (rewrite <- object_ref_value, E; done).
  subst v_days. rewrite toArray_ref.
  generalize (toArray (default JsonUndefined (o !! "days"))) as days.
  intros days.
  enough (Hgen : forall result,
             fold_left (test_day_body fromString) days result =
             result ++ concat (map (fun dayV =>
               map (hour_point fromString (day_date dayV)) (day_hours dayV)) days))
    by apply (Hgen []).
  induction days as [|dayV days IH]; intros result; simpl.
  - by rewrite app_nil_r.
  - rewrite IH, test_day_body_spec. by rewrite <- app_assoc.
Qed.

(** X4: the copy of the parser that the test file runs ignores [freq] and
    takes every hour: it returns what the program's parser returns at the
    frequency 1h (or at an unrecognised frequency string), also on a
    document that is not an object. *)
Theorem test_copy_agrees_at_stride_one (doc : QJsonDocument)
    (freq freq' : string) :
  hours_fit_int doc -> freq ∉ ["3h"; "6h"; "12h"; "1d"] ->
  parseVisualCrossingJson fromString doc freq =
  Some (test_parseVisualCrossingJson fromString doc freq').
Proof.
  intros Hfit Hfreq. rewrite test_parse_spec.
  apply parse_stride_one; [done | by apply interval_of_freq_hourly].
Qed.

Lemma stride_indices_head (k : Z) (n : nat) :
  (1 <= k)%Z ->
  stride_indices k (S n) = 0%nat :: tail (stride_indices k (S n)).
Proof.
  intros Hk. unfold stride_indices.
  destruct (ceil_div_bounds (Z.of_nat (S n)) k ltac:(lia) Hk) as (Hc & Hup & _).
  assert (Hpos : (1 <= ceil_div (Z.of_nat (S n)) k)%Z) by nia.
  destruct (Z.to_nat (ceil_div (Z.of_nat (S n)) k)) as [|c] eqn:E; [lia|].
  done.
Qed.

(** X5: a day whose hourly list is empty (also when "hours" is not an
    array) adds nothing and is no error; any other day adds at least the
    sample of its first hourly entry, whatever the frequency. *)
Theorem day_first_hour_always_sampled (freq : string) (dayV : QJsonValue)
    (result : list (WeatherPoint QDateTime)) :
  (Z.of_nat (length (day_hours dayV)) <= INT_MAX - 24)%Z ->
  (day_hours dayV = [] ->
   day_body fromString (interval_of_freq freq) dayV result = Some result) /\
  (forall (hourV : QJsonValue) (rest : list QJsonValue),
      day_hours dayV = hourV :: rest ->
      exists more : list (WeatherPoint QDateTime),
        day_body fromString (interval_of_freq freq) dayV result =
        Some (result ++ hour_point fromString (day_date dayV) hourV :: more)).
Proof.
  intros Hfit. pose proof (interval_of_freq_range freq) as Hk.
  rewrite day_body_run by done. unfold day_points. split.
  - intros Hnil. rewrite Hnil. simpl length.
    rewrite stride_indices_nil by lia. simpl. by rewrite app_nil_r.
  - intros hourV rest Hh. rewrite Hh. simpl length.
    rewrite stride_indices_head by lia. simpl. by eexists.
Qed.

Lemma stride_indices_day (n : nat) :
  (1 <= n <= 24)%nat -> stride_indices 24 n = [0%nat].
Proof.
  intros Hn. unfold stride_indices, ceil_div.
  replace ((Z.of_nat n + 24 - 1) / 24)%Z with 1%Z; [done|].
  apply Z.div_unique with (r := (Z.of_nat n - 1)%Z); lia.
Qed.

(** X6: at the frequency 1d a document whose days have between 1 and 24
    hourly entries gives one sample per day, that of the first hourly
    entry of the day. *)
Theorem daily_takes_first_hour_of_each_day (doc : QJsonDocument) :
  Forall (fun dayV => (1 <= length (day_hours dayV) <= 24)%nat)
         (doc_days doc) ->
  parseVisualCrossingJson fromString doc "1d" =
  Some (map (fun dayV =>
               hour_point fromString (day_date dayV)
                 (default JsonUndefined (head (day_hours dayV))))
            (doc_days doc)).
Proof.
  intros Hall.
  assert (Hfit : hours_fit_int doc).
  { unfold hours_fit_int. eapply Forall_impl; [exact Hall|].
    intros dayV Hd. simpl in Hd. unfold INT_MAX. lia. }
  rewrite parse_by_day by done. f_equal.
  change (interval_of_freq "1d") with 24%Z.
  induction Hall as [|dayV days Hd Hall IH]; simpl; [done|].
  rewrite IH. unfold day_points at 1. rewrite stride_indices_day by done.
  simpl. by rewrite head_lookup.
Qed.

End ExtractorMore.

Lemma extract_every_hour_at_stride_one_witness :
  parseVisualCrossingJson (fun text _ => text) test_document "1h" =
    Some (all_samples (fun text _ => text) (doc_days test_document)) /\
  length (all_samples (fun text _ => text) (doc_days test_document)) =
    total_hours (doc_days test_document).
Proof.
  apply (extract_every_hour_at_stride_one (fun text _ => text) test_document
           "1h" test_document_fits).
  intros Hin. repeat (apply elem_of_cons in Hin as [Hin | Hin]; [discriminate|]).
  by apply elem_of_nil in Hin.
Defined.

Lemma test_copy_agrees_at_stride_one_witness :
  parseVisualCrossingJson (fun text _ => text) test_document "hourly" =
  Some (test_parseVisualCrossingJson (fun text _ => text) test_document "1d").
Proof.
  apply (test_copy_agrees_at_stride_one (fun text _ => text) test_document
           "hourly" "1d" test_document_fits).
  intros Hin. repeat (apply elem_of_cons in Hin as [Hin | Hin]; [discriminate|]).
  by apply elem_of_nil in Hin.
Defined.

Lemma day_first_hour_always_sampled_witness :
  exists more : list (WeatherPoint string),
    day_body (fun text _ => text) (interval_of_freq "3h") test_day [] =
    Some ([] ++ hour_point (fun text _ => text) (day_date test_day)
                  (test_hour "00:00:00" 10 1010 80 1) :: more).
Proof.
  refine (proj2 (day_first_hour_always_sampled (fun text _ => text) "3h"
                   test_day [] _) _ _ _).
  - by vm_compute.
  - reflexivity.
Defined.

Lemma daily_takes_first_hour_of_each_day_witness :
  parseVisualCrossingJson (fun text _ => text) test_document "1d" =
  Some (map (fun dayV =>
               hour_point (fun text _ => text) (day_date dayV)
                 (default JsonUndefined (head (day_hours dayV))))
            (doc_days test_document)).
Proof.
  apply (daily_takes_first_hour_of_each_day (fun text _ => text) test_document).
  repeat constructor.
Defined.

(** ** The bar chart of the forecast *)

Section BarChartFacts.
Import Double DoubleFacts.

Lemma min_fold_spec (rest : list float) :
  forall x : float,
  is_finite x = true -> Forall (fun t => is_finite t = true) rest ->
  let lo := fold_left (fun smallest v =>
                         if (v <? smallest)%float then v else smallest) rest x in
  lo ∈ x :: rest /\ is_finite lo = true /\
  (value lo <= value x)%Q /\
  Forall (fun t => (value lo <= value t)%Q) rest.
Proof.
  induction rest as [|v rest IH]; intros x Hx Hall; simpl.
  - split; [by apply list_elem_of_singleton|]. split; [done|].
    split; [lra | constructor].
  - apply Forall_cons in Hall as [Hv Hall].
    pose proof (ltb_value v x Hv Hx) as Hlt.
    destruct (v <? x)%float eqn:E.
    + destruct (IH v Hv Hall) as (Hin & Hfin & Hle & Hrest).
      assert (value v < value x)%Q by (by apply Hlt).
      split; [by apply elem_of_cons; right|]. split; [done|]. split; [lra|].
      constructor; done.
    + destruct (IH x Hx Hall) as (Hin & Hfin & Hle & Hrest).
      assert (Hge : (value x <= value v)%Q).
      { apply Qnot_lt_le. intros Hn. apply Hlt in Hn. congruence. }
      split; [|split; [done|]; split; [done|]].
      { apply elem_of_cons in Hin as [-> | Hin];
          [by apply elem_of_cons; left|].
        apply elem_of_cons; right. by apply elem_of_cons; right. }
      constructor; [lra | done].
Qed.

Lemma max_fold_spec (rest : list float) :
  forall x : float,
  is_finite x = true -> Forall (fun t => is_finite t = true) rest ->
  let hi := fold_left (fun largest v =>
                         if (largest <? v)%float then v else largest) rest x in
  hi ∈ x :: rest /\ is_finite hi = true /\
  (value x <= value hi)%Q /\
  Forall (fun t => (value t <= value hi)%Q) rest.
Proof.
  induction rest as [|v rest IH]; intros x Hx Hall; simpl.
  - split; [by apply list_elem_of_singleton|]. split; [done|].
    split; [lra | constructor].
  - apply Forall_cons in Hall as [Hv Hall].
    pose proof (ltb_value x v Hx Hv) as Hlt.
    destruct (x <? v)%float eqn:E.
    + destruct (IH v Hv Hall) as (Hin & Hfin & Hle & Hrest).
      assert (value x < value v)%Q by (by apply Hlt).
      split; [by apply elem_of_cons; right|]. split; [done|]. split; [lra|].
      constructor; done.
    + destruct (IH x Hx Hall) as (Hin & Hfin & Hle & Hrest).
      assert (Hge : (value v <= value x)%Q).
      { apply Qnot_lt_le. intros Hn. apply Hlt in Hn. congruence. }
      split; [|split; [done|]; split; [done|]].
      { apply elem_of_cons in Hin as [-> | Hin];
          [by apply elem_of_cons; left|].
        apply elem_of_cons; right. by apply elem_of_cons; right. }
      constructor; [lra | done].
Qed.

(** On a non-empty vector of finite numbers the two elements picked are
    members of it that bound every member from below and from above. *)
Lemma min_max_element_spec (temps : list float) :
  Forall (fun t => is_finite t = true) temps ->
  (temps = [] -> min_element temps = None /\ max_element temps = None) /\
  (temps <> [] ->
   exists lo hi : float,
     min_element temps = Some lo /\ max_element temps = Some hi /\
     lo ∈ temps /\ hi ∈ temps /\
     Forall (fun t => (value lo <= value t <= value hi)%Q) temps).
Proof.
  intros Hall. split; [by intros ->|]. intros Hne.
  destruct temps as [|x rest]; [done|].
  apply Forall_cons in Hall as [Hx Hall]. simpl.
  destruct (min_fold_spec rest x Hx Hall) as (Hin1 & _ & Hle1 & Hrest1).
  destruct (max_fold_spec rest x Hx Hall) as (Hin2 & _ & Hle2 & Hrest2).
  eexists _, _. split; [done|]. split; [done|]. split; [done|]. split; [done|].
  constructor; [done|].
  rewrite Forall_forall in Hrest1, Hrest2. apply Forall_forall.
  intros t Ht. split; [by apply Hrest1 | by apply Hrest2].
Qed.

Lemma color_loop_run (colors : list QColor) (cnt : nat) :
  forall (fuel : nat) (i : Z) (barSet : QBarSet),
  (0 <= i)%Z -> (Z.of_nat cnt = Z.of_nat (length colors) - i)%Z ->
  (cnt <= fuel)%nat -> (Z.of_nat (length colors) <= INT_MAX)%Z ->
  color_loop fuel colors i barSet =
  Some (match last (drop (Z.to_nat i) colors) with
        | Some c => setColor barSet c
        | None => barSet
        end).
Proof.
  induction cnt as [|cnt IH]; intros fuel i barSet Hi Hcnt Hfuel Hmax.
  - assert (Hge : (i <? Z.of_nat (length colors))%Z = false)
      by (apply Z.ltb_ge; lia).
    rewrite drop_ge by lia.
    destruct fuel; simpl; by rewrite Hge.
  - destruct fuel as [|fuel]; [lia|].
    assert (Hlt : (i <? Z.of_nat (length colors))%Z = true)
      by (apply Z.ltb_lt; lia).
    simpl color_loop. rewrite Hlt.
    assert (Hnn : (i <? 0)%Z = false) by (apply Z.ltb_ge; lia).
    rewrite Hnn.
    destruct (lookup_lt_is_Some_2 colors (Z.to_nat i) ltac:(lia)) as [c Hc].
    rewrite Hc. simpl.
    rewrite int_add_in_range by (unfold INT_MIN, INT_MAX in *; lia).
    simpl. rewrite IH by lia.
    rewrite (drop_S colors c (Z.to_nat i) Hc).
    replace (Z.to_nat (i + 1)) with (S (Z.to_nat i)) by lia.
    rewrite last_cons. by destruct (last (drop (S (Z.to_nat i)) colors)).
Qed.

Lemma barset_values_fold (temps : list float) (barSet : QBarSet) :
  fold_left (fun barSet t =>
               mkQBarSet (barset_label barSet) (barset_values barSet ++ [t])
                         (barset_color barSet)) temps barSet =
  mkQBarSet (barset_label barSet) (barset_values barSet ++ temps)
            (barset_color barSet).
Proof.
  revert barSet. induction temps as [|t temps IH]; intros barSet; simpl.
  - rewrite app_nil_r. by destruct barSet.
  - rewrite IH. simpl. by rewrite <- app_assoc.
Qed.

(** What [plotBarColored] sets, when it is defined. *)
Lemma plotBarColored_run (times : list string) (temps : list float)
    (colors : list QColor) (lo hi : float) :
  (Z.of_nat (length colors) <= INT_MAX)%Z ->
  min_element temps = Some lo -> max_element temps = Some hi ->
  plotBarColored times temps colors =
  Some (mkQBarChart (mkQBarSet "Температура" temps (last colors))
          "Температура в ближайшие 24 часа" times
          ((lo - 5)%float, (hi + 5)%float)).
Proof.
  intros Hmax Hlo Hhi. unfold plotBarColored.
  rewrite barset_values_fold. simpl.
  rewrite (color_loop_run colors (length colors)) by lia.
  change (Z.to_nat 0) with 0%nat. rewrite drop_0.
  simpl. rewrite Hlo, Hhi. simpl. f_equal. f_equal.
  by destruct (last colors).
Qed.

(** The bar set of the chart, when there are temperatures. *)
Lemma plotBarColored_bar_set (times : list string) (temps : list float)
    (colors : list QColor) :
  (Z.of_nat (length colors) <= INT_MAX)%Z -> temps <> [] ->
  exists chart : QBarChart,
    plotBarColored times temps colors = Some chart /\
    barset_color (bar_set chart) = last colors /\
    barset_values (bar_set chart) = temps /\
    bar_categories chart = times.
Proof.
  intros Hmax Hne. destruct temps as [|x rest]; [done|].
  eexists. split; [by apply plotBarColored_run|]. done.
Qed.


(** X8: the range of the value axis is taken 5 below an element of the
    vector that no element is below, and 5 above an element that no
    element is above, when the temperatures are finite. *)
Theorem bar_axis_encloses_temperatures (times : list string)
    (temps : list float) (colors : list QColor) :
  (Z.of_nat (length colors) <= INT_MAX)%Z -> temps <> [] ->
  Forall (fun t => is_finite t = true) temps ->
  exists (chart : QBarChart) (lo hi : float),
    plotBarColored times temps colors = Some chart /\
    bar_range chart = ((lo - 5)%float, (hi + 5)%float) /\
    lo ∈ temps /\ hi ∈ temps /\
    Forall (fun t => (value lo <= value t <= value hi)%Q) temps.
Proof.
  intros Hmax Hne Hfin.
  destruct (proj2 (min_max_element_spec temps Hfin) Hne)
    as (lo & hi & Hlo & Hhi & Hin1 & Hin2 & Hall).
  eexists _, lo, hi. split; [by apply plotBarColored_run|]. done.
Qed.

(** X9: without temperatures there is no chart, whatever the labels and
    the colours: the minimum is read through the end iterator. *)
Theorem plotBarColored_empty (times : list string) (colors : list QColor) :
  plotBarColored times [] colors = None.
Proof.
  unfold plotBarColored. simpl.
  by destruct (color_loop (length colors) colors 0 _).
Qed.

End BarChartFacts.


Lemma bar_axis_encloses_temperatures_witness :
  exists (chart : QBarChart) (lo hi : float),
    plotBarColored ["00:00"; "03:00"; "06:00"]
      [4%float; (-3)%float; 17.5%float] [] = Some chart /\
    bar_range chart = ((lo - 5)%float, (hi + 5)%float) /\
    lo ∈ [4%float; (-3)%float; 17.5%float] /\
    hi ∈ [4%float; (-3)%float; 17.5%float] /\
    Forall (fun t => (Double.value lo <= Double.value t <= Double.value hi)%Q)
           [4%float; (-3)%float; 17.5%float].
Proof.
  apply (bar_axis_encloses_temperatures ["00:00"; "03:00"; "06:00"]
           [4%float; (-3)%float; 17.5%float] []).
  - by vm_compute.
  - discriminate.
  - repeat constructor.
Defined.

(** ** The replies of the weather services *)

Section WindowFacts.
Import Double DoubleFacts.
Context {QDateTime : Type}.
Variable fromString : string -> string -> QDateTime.
Variable formatDateTime : QDateTime -> string -> string.

Lemma forecast_fold (arr : list QJsonValue) :
  forall st : ForecastLists QDateTime,
  fold_left (forecast_step fromString formatDateTime) arr st =
  let data := map (forecast_point fromString) arr in
  mkForecastLists (fl_data st ++ data)
    (fl_times st ++ map (fun p => formatDateTime (datetime p) "HH:mm") data)
    (fl_temps st ++ map temperature data)
    (fl_colors st ++ map (fun p => fon (temperature p)) data).
Proof.
  induction arr as [|v arr IH]; intros st; simpl.
  - rewrite !app_nil_r. by destruct st.
  - rewrite IH. simpl. by rewrite <- !app_assoc.
Qed.

Lemma forecast_lists_spec (fdoc : QJsonDocument) :
  forecast_lists fromString formatDateTime fdoc =
  let data := map (forecast_point fromString) (forecast_entries fdoc) in
  mkForecastLists data
    (map (fun p => formatDateTime (datetime p) "HH:mm") data)
    (map temperature data)
    (map (fun p => fon (temperature p)) data).
Proof.
  unfold forecast_lists, forecast_entries.
  destruct (object_ref (object fdoc) "list") as [v_list obj] eqn:E.
  assert (Hv : v_list = default JsonNull (object fdoc !! "list"))
    by (rewrite <- object_ref_value, E; done).
  subst v_list. rewrite toArray_ref. by rewrite forecast_fold.
Qed.

(** X10: the forecast callback keeps its four vectors in step: one sample,
    one label, one temperature and one colour per entry of the list, the
    temperature being that of the sample and the colour [fon] of it. *)
Theorem forecast_lists_in_step (fdoc : QJsonDocument) :
  let st := forecast_lists fromString formatDateTime fdoc in
  fl_data st = map (forecast_point fromString) (forecast_entries fdoc) /\
  fl_times st = map (fun p => formatDateTime (datetime p) "HH:mm") (fl_data st) /\
  fl_temps st = map temperature (fl_data st) /\
  fl_colors st = map fon (fl_temps st) /\
  length (fl_data st) = length (forecast_entries fdoc).
Proof.
  intros st. unfold st. rewrite forecast_lists_spec. simpl.
  split; [done|]. split; [done|]. split; [done|].
  split; [|by rewrite length_map].
  generalize (map (forecast_point fromString) (forecast_entries fdoc)).
  intros data. induction data as [|p data IH]; simpl; [done|]. by rewrite IH.
Qed.

(** The temperature field of a forecast entry. *)
Lemma forecast_point_temperature (v : QJsonValue) :
  temperature (forecast_point fromString v) =
  (toDouble (default JsonNull
               (toObject (default JsonNull (toObject v !! "main")) !! "temp"))
   - kelvin_offset)%float.
Proof.
  unfold forecast_point.
  destruct (object_ref (toObject v) "dt_txt") as [v_dt o1] eqn:E1.
  destruct (object_ref o1 "main") as [v_main o2] eqn:E2.
  destruct (object_ref o2 "main") as [v_main2 o3] eqn:E3.
  destruct (object_ref o3 "main") as [v_main3 o4] eqn:E4.
  destruct (object_ref o4 "wind") as [v_wind o5] eqn:E5.
  simpl. rewrite object_ref_value.
  assert (Hm : v_main = default JsonNull (o1 !! "main"))
    by (rewrite <- object_ref_value, E2; done).
  assert (H1 : o1 !! "main" = toObject v !! "main").
  { change o1 with (v_dt, o1).2. rewrite <- E1.
    by apply object_ref_lookup_ne. }
  by rewrite Hm, H1.
Qed.

(** X11: an entry of the forecast without a number under main.temp is
    read as 0 kelvin: its temperature is 0 - 273.15 and its colour the
    coldest one; the same holds of the current-weather reply and the
    background it sets. *)
Theorem missing_temp_is_zero_kelvin (v : QJsonValue) (doc : QJsonDocument) :
  (forall d : float,
      toObject (default JsonNull (toObject v !! "main")) !! "temp"
      <> Some (JsonDouble d)) ->
  (forall d : float,
      toObject (default JsonNull (object doc !! "main")) !! "temp"
      <> Some (JsonDouble d)) ->
  temperature (forecast_point fromString v) = (0 - kelvin_offset)%float /\
  fon (temperature (forecast_point fromString v)) = ColorName "#191970" /\
  current_temp doc = (0 - kelvin_offset)%float /\
  current_background doc = ColorName "#191970".
Proof.
  intros Hv Hdoc.
  assert (Hentry :
    temperature (forecast_point fromString v) = (0 - kelvin_offset)%float).
  { rewrite forecast_point_temperature.
    destruct (toObject (default JsonNull (toObject v !! "main")) !! "temp")
      as [[]|] eqn:E; try done. by destruct (Hv d). }
  assert (Hcur : current_temp doc = (0 - kelvin_offset)%float).
  { unfold current_temp.
    destruct (object_ref (object doc) "main") as [v_main o1] eqn:E1.
    assert (Hm : v_main = default JsonNull (object doc !! "main"))
      by (rewrite <- object_ref_value, E1; done).
    destruct (object_ref (toObject v_main) "temp") as [v_temp o2] eqn:E2.
    assert (Ht : v_temp = default JsonNull (toObject v_main !! "temp"))
      by (rewrite <- object_ref_value, E2; done).
    subst v_main v_temp.
    destruct (toObject (default JsonNull (object doc !! "main")) !! "temp")
      as [[]|] eqn:E; try done. by destruct (Hdoc d). }
  unfold current_background. rewrite Hentry, Hcur.
  split; [done|]. split; [reflexivity|]. split; [done|]. reflexivity.
Qed.

(** X12: the forecast callback stores one sample per entry of the list;
    its bar chart exists exactly when the list has an entry, and then its
    one bar set holds all the temperatures and carries the colour of the
    last one alone. *)
Theorem forecast_reply_chart (fdoc : QJsonDocument) :
  (Z.of_nat (length (forecast_entries fdoc)) <= INT_MAX)%Z ->
  let data := map (forecast_point fromString) (forecast_entries fdoc) in
  (forecast_reply fromString formatDateTime fdoc).1 = data /\
  (forecast_entries fdoc = [] ->
   (forecast_reply fromString formatDateTime fdoc).2 = None) /\
  (forecast_entries fdoc <> [] ->
   exists chart : QBarChart,
     (forecast_reply fromString formatDateTime fdoc).2 = Some chart /\
     barset_values (bar_set chart) = map temperature data /\
     barset_color (bar_set chart) = fon <$> last (map temperature data)).
Proof.
  intros Hmax data. unfold forecast_reply.
  rewrite forecast_lists_spec. fold data. simpl. split; [done|]. split.
  - intros Hnil. unfold data. rewrite Hnil. reflexivity.
  - intros Hne.
    assert (Hd : map temperature data <> []).
    { unfold data. destruct (forecast_entries fdoc); done. }
    destruct (plotBarColored_bar_set
                (map (fun p => formatDateTime (datetime p) "HH:mm") data)
                (map temperature data)
                (map (fun p => fon (temperature p)) data))
      as (chart & Hc & Hcol & Hval & _);
      [unfold data; by rewrite !length_map|done|].
    exists chart. split; [done|]. split; [done|].
    rewrite Hcol, !fmap_last. by destruct (last data).
Qed.

End WindowFacts.

Lemma missing_temp_is_zero_kelvin_witness :
  temperature (forecast_point (fun text _ => text)
                 (JsonObject {["main" := JsonObject {["pressure" := JsonDouble 1010]}]}))
    = (0 - kelvin_offset)%float /\
  fon (temperature (forecast_point (fun text _ => text)
                 (JsonObject {["main" := JsonObject {["pressure" := JsonDouble 1010]}]})))
    = ColorName "#191970" /\
  current_temp DocNull = (0 - kelvin_offset)%float /\
  current_background DocNull = ColorName "#191970".
Proof.
  apply (missing_temp_is_zero_kelvin (fun text _ => text)
           (JsonObject {["main" := JsonObject {["pressure" := JsonDouble 1010]}]})
           DocNull).
  - intros d. by vm_compute.
  - intros d. by vm_compute.
Defined.

Lemma forecast_reply_chart_witness :
  let fdoc := DocObject {["list" := JsonArray
                [JsonObject {["main" := JsonObject {["temp" := JsonDouble 270]}]};
                 JsonObject {["main" := JsonObject {["temp" := JsonDouble 290]}]}]]} in
  let data := map (forecast_point (fun text _ => text)) (forecast_entries fdoc) in
  exists chart : QBarChart,
    (forecast_reply (fun text _ => text) (fun dt _ => dt) fdoc).2 = Some chart /\
    barset_values (bar_set chart) = map temperature data /\
    barset_color (bar_set chart) = fon <$> last (map temperature data).
Proof.
  intros fdoc data.
  refine (proj2 (proj2 (forecast_reply_chart (fun text _ => text)
                          (fun dt _ => dt) fdoc _)) _).
  - by vm_compute.
  - by vm_compute.
Defined.

(** ** More on the charts *)

Section ChartMore.
Import Double DoubleFacts.
Context {QDateTime : Type}.
Variable fromString : string -> string -> QDateTime.
Variable fromMSecsSinceEpoch : Z -> QDateTime.
Variable toMSecsSinceEpoch : QDateTime -> Z.

Lemma not_pos_iff_zero_or_nan (x : float) :
  SF_nonneg (Prim2SF x) = true ->
  (0 <? x)%float = false <-> (x =? 0)%float = true \/ is_nan x = true.
Proof.
  rewrite FloatAxioms.eqb_spec, ltb_spec. unfold SFeqb, SFltb, is_nan.
  change (Prim2SF 0) with (S754_zero false).
  destruct (Prim2SF x) as [s | [] | | [] m e]; simpl; intros Hn;
    try done; split; intros H; try done; try (by left); try (by right);
    by destruct H.
Qed.

(** X13: the standard deviation is never below zero, so that with the
    deviation display on the band is missing exactly when the standard
    deviation is zero or NaN. *)
Theorem band_missing_iff_zero_or_nan (xys : list QPointF) (name : string)
    (color : QColor) (freq : string) :
  let sd := stddev (map py xys) in
  (sd <? 0)%float = false /\
  (deviation_series
     (plotLineStat fromMSecsSinceEpoch toMSecsSinceEpoch xys name color
        true freq) = [] <->
   (sd =? 0)%float = true \/ is_nan sd = true).
Proof.
  intros sd. split; [apply stddev_not_negative|].
  rewrite <- not_pos_iff_zero_or_nan
    by (unfold sd, stddev; rewrite sqrt_spec; apply SFsqrt_nonneg).
  change (deviation_series _) with
    (if true && (0 <? sd)%float
     then [upper_series fromMSecsSinceEpoch toMSecsSinceEpoch xys;
           lower_series fromMSecsSinceEpoch toMSecsSinceEpoch xys] else []).
  simpl. by destruct (0 <? sd)%float.
Qed.

Lemma lines_length (xys : list QPointF) (name : string) (color : QColor)
    (showDeviation : bool) (freq : string) :
  Forall (fun s => length (series_points s) = length xys)
    (chart_series (plotLineStat fromMSecsSinceEpoch toMSecsSinceEpoch xys
                     name color showDeviation freq)).
Proof.
  unfold plotLineStat. simpl.
  repeat constructor; simpl; rewrite ?length_map; try done.
  destruct (showDeviation && _); repeat constructor; simpl;
    by rewrite length_zip_with, !length_map, Nat.min_id.
Qed.

(** X14: every line of the chart (the data line, the mean line and the two
    lines of the band when it is drawn) has one point per input point. *)
Theorem chart_lines_have_input_length (xys : list QPointF) (name : string)
    (color : QColor) (showDeviation : bool) (freq : string) :
  let chart := plotLineStat fromMSecsSinceEpoch toMSecsSinceEpoch xys
                 name color showDeviation freq in
  (length (chart_series chart) = 2%nat \/ length (chart_series chart) = 4%nat) /\
  Forall (fun s => length (series_points s) = length xys)
    (chart_series chart).
Proof.
  intros chart. split; [|apply lines_length].
  unfold chart, plotLineStat. simpl.
  destruct (showDeviation && _); [by right | by left].
Qed.

(** X15: when [QDateTime] gives back the millisecond count it was made
    from, every line of the chart sits at the timestamps of the data
    line, and the mean line is flat at the mean of the values. *)
Theorem lines_share_timestamps (xys : list QPointF) (name : string)
    (color : QColor) (showDeviation : bool) (freq : string) :
  (forall ms : Z, toMSecsSinceEpoch (fromMSecsSinceEpoch ms) = ms) ->
  let chart := plotLineStat fromMSecsSinceEpoch toMSecsSinceEpoch xys name
                 color showDeviation freq in
  Forall (fun s => map px (series_points s) =
                   map (fun pt => of_qint64 (to_qint64 (px pt))) xys)
         (chart_series chart) /\
  (exists meanL : QLineSeries,
      chart_series chart !! 1%nat = Some meanL /\
      series_name meanL = "Среднее" /\
      Forall (fun p => py p = mean (map py xys)) (series_points meanL)).
Proof.
  intros Hrt chart. unfold chart, plotLineStat. simpl. split.
  - assert (Hz : forall (h : QDateTime -> float -> QPointF),
        (forall dt v, px (h dt v) = of_qint64 (toMSecsSinceEpoch dt)) ->
        map px (zip_with h
                  (map fromMSecsSinceEpoch
                     (map (fun pt => to_qint64 (px pt)) xys)) (map py xys)) =
        map (fun pt => of_qint64 (to_qint64 (px pt))) xys).
    { intros h Hh. induction xys as [|pt xys' IH]; simpl; [done|].
      by rewrite IH, Hh, Hrt. }
    constructor; [|constructor].
    + simpl. rewrite <- list_fmap_compose. done.
    + simpl. rewrite <- !list_fmap_compose. apply list_fmap_ext.
      intros _ pt _. simpl. by rewrite Hrt.
    + destruct (showDeviation && _); [|constructor].
      constructor; [|constructor; [|constructor]]; simpl; by apply Hz.
  - eexists. split; [done|]. simpl. split; [done|].
    apply Forall_forall. intros p Hp.
    apply list_elem_of_fmap in Hp as (dt & -> & _). done.
Qed.

(** X16: on the empty series the mean and the standard deviation are NaN
    (zero divided by zero); the chart holds two empty lines and no band,
    even with the deviation display on, and its time axis gets neither a
    range nor a tick count. *)
Theorem empty_series_chart (name : string) (color : QColor)
    (showDeviation : bool) (freq : string) :
  let chart := plotLineStat fromMSecsSinceEpoch toMSecsSinceEpoch [] name
                 color showDeviation freq in
  is_nan (mean ([] : list float)) = true /\
  is_nan (stddev ([] : list float)) = true /\
  chart_series chart =
    [mkQLineSeries name color []; mkQLineSeries "Среднее" (ColorGlobal red) []] /\
  axis_range (chart_axisX chart) = None /\
  axis_tick_count (chart_axisX chart) = None.
Proof.
  intros chart. split; [reflexivity|]. split; [reflexivity|].
  unfold chart, plotLineStat. simpl.
  change (0 <? stddev [])%float with false. rewrite andb_false_r. done.
Qed.


Lemma four_xy_fold (data : list (WeatherPoint QDateTime)) :
  forall st : FourXY,
  fold_left (four_xy_step toMSecsSinceEpoch) data st =
  let xy field :=
    map (fun pt => mkQPointF (of_qint64 (toMSecsSinceEpoch (datetime pt)))
                             (field pt)) data in
  mkFourXY (tempXY st ++ xy temperature) (presXY st ++ xy pressure)
           (humXY st ++ xy humidity) (windXY st ++ xy windspeed).
Proof.
  induction data as [|pt data IH]; intros st; simpl.
  - rewrite !app_nil_r. by destruct st.
  - rewrite IH. simpl. by rewrite <- !app_assoc.
Qed.

Lemma chart_inputs_spec (data : list (WeatherPoint QDateTime)) :
  chart_inputs toMSecsSinceEpoch data =
  [ (xy_of toMSecsSinceEpoch temperature data, "Температура", ColorGlobal blue);
    (xy_of toMSecsSinceEpoch pressure data, "Давление", ColorGlobal darkGreen);
    (xy_of toMSecsSinceEpoch humidity data, "Влажность", ColorGlobal darkYellow);
    (xy_of toMSecsSinceEpoch windspeed data, "Скорость ветра", ColorGlobal magenta) ].
Proof. unfold chart_inputs, four_xy. by rewrite four_xy_fold. Qed.

(** The data line of the points made from samples whose timestamps are
    below 2^53 milliseconds is the list of these points. *)
Lemma data_line_of_samples (field : WeatherPoint QDateTime -> float)
    (data : list (WeatherPoint QDateTime)) :
  Forall (fun pt => (- 2 ^ 53 < toMSecsSinceEpoch (datetime pt) < 2 ^ 53)%Z)
         data ->
  map (fun pt => point_at (to_qint64 (px pt)) (py pt)) (xy_of toMSecsSinceEpoch field data) =
  xy_of toMSecsSinceEpoch field data.
Proof.
  intros Hall. unfold xy_of. rewrite <- list_fmap_compose.
  apply Forall_fmap_ext_1. eapply Forall_impl; [exact Hall|].
  intros pt Hpt. simpl. unfold point_at. by rewrite qint64_roundtrip.
Qed.

(** X18: timestamps survive the way from the samples into the chart: a
    millisecond count below 2^53 in magnitude is converted to [double] and
    back without change, so that the data line of a chart built from
    samples is the list of (timestamp, field) points of these samples. *)
Theorem timestamps_survive_into_chart
    (field : WeatherPoint QDateTime -> float)
    (data : list (WeatherPoint QDateTime)) (name : string) (color : QColor)
    (showDeviation : bool) (freq : string) :
  Forall (fun pt => (- 2 ^ 53 < toMSecsSinceEpoch (datetime pt) < 2 ^ 53)%Z)
         data ->
  (forall z : Z, (- 2 ^ 53 < z < 2 ^ 53)%Z -> to_qint64 (of_qint64 z) = z) /\
  chart_series (plotLineStat fromMSecsSinceEpoch toMSecsSinceEpoch
                  (xy_of toMSecsSinceEpoch field data) name color showDeviation freq) !! 0%nat =
  Some (mkQLineSeries name color
          (map (fun pt => mkQPointF
                            (of_qint64 (toMSecsSinceEpoch (datetime pt)))
                            (field pt)) data)).
Proof.
  intros Hall. split; [apply qint64_roundtrip|].
  unfold plotLineStat. simpl. by rewrite data_line_of_samples.
Qed.

Lemma xy_of_length (field : WeatherPoint QDateTime -> float)
    (data : list (WeatherPoint QDateTime)) :
  length (xy_of toMSecsSinceEpoch field data) = length data.
Proof. unfold xy_of. by rewrite length_map. Qed.

(** One chart of the dialog of the current forecast. *)
Lemma current_chart_shape (xys : list QPointF) (name : string)
    (color : QColor) :
  let chart := setFormat "HH:mm"
                 (plotLineStat fromMSecsSinceEpoch toMSecsSinceEpoch xys
                    name color false "3h") in
  axis_format (chart_axisX chart) = "HH:mm" /\
  length (chart_series chart) = 2%nat /\
  deviation_series chart = [] /\
  Forall (fun s => length (series_points s) = length xys)
         (chart_series chart).
Proof.
  intros chart. split; [done|]. split; [done|]. split; [done|].
  apply (lines_length xys name color false "3h").
Qed.

(** X19: the dialog of the current forecast: an error text and no chart
    when there is no forecast; otherwise four charts, titled temperature,
    pressure, humidity and wind speed, each with the hour-only axis format,
    one point per forecast sample on its data line, and never a deviation
    band. *)
Theorem showFourChartsCurrent_charts
    (forecastData : list (WeatherPoint QDateTime)) :
  (forecastData = [] ->
   exists msg, showFourChartsCurrent fromMSecsSinceEpoch toMSecsSinceEpoch
                 forecastData = inl msg) /\
  (forecastData <> [] ->
   exists charts,
     showFourChartsCurrent fromMSecsSinceEpoch toMSecsSinceEpoch forecastData
       = inr charts /\
     map chart_title charts =
       ["Температура"; "Давление"; "Влажность"; "Скорость ветра"] /\
     Forall (fun chart =>
               axis_format (chart_axisX chart) = "HH:mm" /\
               length (chart_series chart) = 2%nat /\
               deviation_series chart = [] /\
               Forall (fun s => length (series_points s) = length forecastData)
                      (chart_series chart)) charts).
Proof.
  split.
  - intros ->. by eexists.
  - intros Hne. destruct forecastData as [|pt data]; [done|].
    eexists. split; [reflexivity|].
    rewrite chart_inputs_spec. split; [reflexivity|].
    simpl map.
    constructor; [|constructor; [|constructor; [|constructor; [|constructor]]]].
    + rewrite <- (xy_of_length temperature (pt :: data)).
      apply current_chart_shape.
    + rewrite <- (xy_of_length pressure (pt :: data)).
      apply current_chart_shape.
    + rewrite <- (xy_of_length humidity (pt :: data)).
      apply current_chart_shape.
    + rewrite <- (xy_of_length windspeed (pt :: data)).
      apply current_chart_shape.
Qed.

(** One chart of a statistics tab. *)
Lemma stat_chart_shape (xys : list QPointF) (name : string) (color : QColor)
    (showDev : bool) (freq : string) :
  let chart :=
    if showDev
    then plotLineStat fromMSecsSinceEpoch toMSecsSinceEpoch xys name color
           true freq
    else plotLineStat fromMSecsSinceEpoch toMSecsSinceEpoch xys name color
           false freq in
  Forall (fun s => length (series_points s) = length xys)
         (chart_series chart) /\
  (showDev = false -> deviation_series chart = []).
Proof.
  intros chart. unfold chart. destruct showDev.
  - split; [apply lines_length | done].
  - split; [apply lines_length | done].
Qed.

(** X20: the callback of the statistics tabs, on a document whose hourly
    lists fit the counter: an error box and no chart when the extraction
    selects nothing; otherwise four charts for the tab asked for, titled
    temperature, pressure, humidity and wind speed, each line with one
    point per extracted sample, and in the tab of the averages never a
    deviation band. *)
Theorem getPlotStat_reply_outcome (showDev : bool) (doc : QJsonDocument)
    (freq : string) :
  hours_fit_int doc ->
  let src := selected (interval_of_freq freq) (doc_days doc) in
  (src = [] ->
   getPlotStat_reply fromString fromMSecsSinceEpoch toMSecsSinceEpoch
     showDev doc freq
   = Some (PlotError "Ошибка" "Нет данных для отображения.")) /\
  (src <> [] ->
   exists charts,
     getPlotStat_reply fromString fromMSecsSinceEpoch toMSecsSinceEpoch
       showDev doc freq = Some (PlotCharts showDev charts) /\
     map chart_title charts =
       ["Температура"; "Давление"; "Влажность"; "Скорость ветра"] /\
     Forall (fun chart =>
               Forall (fun s => length (series_points s) = length src)
                      (chart_series chart) /\
               (showDev = false -> deviation_series chart = []))
            charts).
Proof.
  intros Hfit src. unfold getPlotStat_reply.
  rewrite parse_by_position by done. fold src.
  set (list := map (sample_at fromString (doc_days doc)) src).
  assert (Hlen : length list = length src) by (unfold list; by rewrite length_map).
  split.
  - intros Hnil. unfold list. by rewrite Hnil.
  - intros Hne.
    exists (map (fun '(xys, name, col) =>
                   if showDev
                   then plotLineStat fromMSecsSinceEpoch toMSecsSinceEpoch
                          xys name col true freq
                   else plotLineStat fromMSecsSinceEpoch toMSecsSinceEpoch
                          xys name col false freq)
                (chart_inputs toMSecsSinceEpoch list)).
    split; [|split].
    + destruct list as [|p list'] eqn:E; [|done].
      destruct src; [done | discriminate Hlen].
    + rewrite chart_inputs_spec. by destruct showDev.
    + rewrite chart_inputs_spec. simpl map. rewrite <- Hlen.
      constructor; [|constructor; [|constructor; [|constructor; [|constructor]]]].
      * rewrite <- (xy_of_length temperature list). apply stat_chart_shape.
      * rewrite <- (xy_of_length pressure list). apply stat_chart_shape.
      * rewrite <- (xy_of_length humidity list). apply stat_chart_shape.
      * rewrite <- (xy_of_length windspeed list). apply stat_chart_shape.
Qed.

End ChartMore.

Lemma lines_share_timestamps_witness :
  let xys := [mkQPointF 0 1; mkQPointF 3600000 2; mkQPointF 7200000 3] in
  let chart := plotLineStat (fun ms => ms) (fun dt => dt) xys "t"
                 (ColorGlobal blue) true "1h" in
  Forall (fun s => map px (series_points s) =
                   map (fun pt => Double.of_qint64 (Double.to_qint64 (px pt))) xys)
         (chart_series chart) /\
  (exists meanL : QLineSeries,
      chart_series chart !! 1%nat = Some meanL /\
      series_name meanL = "Среднее" /\
      Forall (fun p => py p = mean (map py xys)) (series_points meanL)).
Proof.
  intros xys.
  exact (lines_share_timestamps (fun ms => ms) (fun dt => dt) xys "t"
           (ColorGlobal blue) true "1h" (fun ms => eq_refl)).
Defined.

Lemma timestamps_survive_into_chart_witness :
  let data := [mkWeatherPoint 1672531200000%Z 10 1010 80 1;
               mkWeatherPoint 1672534800000%Z 11 1011 81 2] in
  chart_series (plotLineStat (fun ms => ms) (fun dt => dt)
                  (xy_of (fun dt => dt) temperature data) "t"
                  (ColorGlobal blue) false "1h") !! 0%nat =
  Some (mkQLineSeries "t" (ColorGlobal blue)
          (map (fun pt => mkQPointF (Double.of_qint64 (datetime pt))
                                    (temperature pt)) data)).
Proof.
  intros data.
  refine (proj2 (timestamps_survive_into_chart (fun ms => ms) (fun dt => dt)
                   temperature data "t" (ColorGlobal blue) false "1h" _)).
  repeat constructor.
Defined.

Lemma getPlotStat_reply_outcome_witness :
  exists charts : list (QChart string),
    getPlotStat_reply (fun text _ => text) (fun _ => "2023-01-01 00:00:00")
      (fun _ => 1672531200000%Z) true test_document "1h" =
      Some (PlotCharts true charts) /\
    map chart_title charts =
      ["Температура"; "Давление"; "Влажность"; "Скорость ветра"].
Proof.
  destruct (proj2 (getPlotStat_reply_outcome (fun text _ => text)
                     (fun _ => "2023-01-01 00:00:00")
                     (fun _ => 1672531200000%Z) true test_document "1h"
                     test_document_fits))
    as (charts & Hc & Ht & _); [by vm_compute|].
  exists charts. split; [exact Hc | exact Ht].
Defined.
